(** * GraSPipe embedders: MultipleASE, BaseEmbed and ClassicalMDS

    A shallow embedding of [embed/base_mase.py], [embed/mase.py] and
    [embed/mds.py].  Arrays are lists of rows over an abstract scalar type;
    Python objects are records whose fitted attributes are optional (an
    attribute that was never assigned is [None] here and reading it raises
    [AttributeError]); methods run in a state-and-exception monad in which the
    object keeps every assignment made before an exception was raised. *)

From Stdlib Require Import String.
From Stdlib Require Import List ZArith Bool Arith Lia.
From Stdlib Require QArith.
Import ListNotations.

Set Implicit Arguments.

(** ** Exceptions and fallible results *)

Inductive exn : Type :=
| ValueError
| TypeError
| NameError
| AttributeError
| IndexError
| ZeroDivisionError
| OverflowError.

Definition exn_eqb (a b : exn) : bool :=
  match a, b with
  | ValueError, ValueError | TypeError, TypeError | NameError, NameError
  | AttributeError, AttributeError | IndexError, IndexError
  | ZeroDivisionError, ZeroDivisionError | OverflowError, OverflowError => true
  | _, _ => false
  end.

Inductive result (A : Type) : Type :=
| Ok (a : A)
| Raise (e : exn).

Arguments Ok {A} a.
Arguments Raise {A} e.

Definition rbind {A B} (r : result A) (k : A -> result B) : result B :=
  match r with
  | Ok a => k a
  | Raise e => Raise e
  end.

Declare Scope result_scope.
Delimit Scope result_scope with res.
Notation "x <- c ;; k" := (rbind c (fun x => k))
  (at level 61, c at next level, right associativity) : result_scope.
Notation "' p <- c ;; k" := (rbind c (fun x => let 'p := x in k))
  (at level 61, p pattern, c at next level, right associativity) : result_scope.

(** A list comprehension whose body may raise: the first exception wins. *)
Fixpoint mapM {A B} (f : A -> result B) (l : list A) : result (list B) :=
  match l with
  | [] => Ok []
  | x :: t =>
      match f x with
      | Raise e => Raise e
      | Ok y =>
          match mapM f t with
          | Raise e => Raise e
          | Ok ys => Ok (y :: ys)
          end
      end
  end.

(** ** Python slicing and indexing *)

(** [l[:d]]: a negative bound counts from the end, a bound past the end
    keeps everything. *)
Definition py_upto {A} (d : Z) (l : list A) : list A :=
  if (0 <=? d)%Z then firstn (Z.to_nat d) l
  else firstn (length l - Z.to_nat (- d)) l.

(** The number of entries that [l[:d]] keeps of a list of length [r]. *)
Definition kept (d : Z) (r : nat) : nat :=
  if (0 <=? d)%Z then Nat.min (Z.to_nat d) r else r - Z.to_nat (- d).

(** [l[-1]] *)
Definition py_last {A} (l : list A) : result A :=
  match rev l with
  | [] => Raise IndexError
  | x :: _ => Ok x
  end.

(** [np.max] of a list of integers; an empty list is a [ValueError]. *)
Definition np_max (l : list Z) : result Z :=
  match l with
  | [] => Raise ValueError
  | x :: t => Ok (fold_left Z.max t x)
  end.

(** [int(np.ceil(np.log2(n)))] for a vertex count [n]: [log2 0] is [-inf],
    whose conversion to [int] overflows. *)
Definition ceil_log2 (n : nat) : result Z :=
  match n with
  | O => Raise OverflowError
  | _ => Ok (Z.log2_up (Z.of_nat n))
  end.

(** ** Scalars

    The entries of the arrays are floating-point numbers in the program; the
    development only needs the operations the embedders apply to them. *)

Record Numeric : Type := {
  F : Type;
  f0 : F;
  f1 : F;
  fadd : F -> F -> F;
  fsub : F -> F -> F;
  fmul : F -> F -> F;
  fdiv : F -> F -> F;
  fsqrt : F -> F;
  f_of_nat : nat -> F;
  f_neg_half : F            (* the literal [-0.5] *)
}.

Module Mat.
Section Arrays.
Variable N : Numeric.
Let F := F N.

Definition vector := list F.
Definition matrix := list (list F).     (* rows *)

Definition nrows (M : matrix) : nat := length M.
Definition ncols (M : matrix) : nat := length (hd [] M).
Definition shape (M : matrix) : nat * nat := (nrows M, ncols M).

Definition ones (r c : nat) : matrix := repeat (repeat (f1 N) c) r.

Definition identity (n : nat) : matrix :=
  map (fun i => map (fun j => if Nat.eqb i j then f1 N else f0 N) (seq 0 n))
      (seq 0 n).

(** [np.diag(v)] for a one-dimensional [v] *)
Definition diag (v : vector) : matrix :=
  map (fun i =>
         map (fun j => if Nat.eqb i j then nth i v (f0 N) else f0 N)
             (seq 0 (length v)))
      (seq 0 (length v)).

Definition col (j : nat) (M : matrix) : vector :=
  map (fun row => nth j row (f0 N)) M.

(** [M.T] *)
Definition transpose (M : matrix) : matrix :=
  map (fun j => col j M) (seq 0 (ncols M)).

Definition sum (v : vector) : F := fold_left (fadd N) v (f0 N).

Definition dot (u v : vector) : F :=
  sum (map (fun p => fmul N (fst p) (snd p)) (combine u v)).

(** [A @ B] on two-dimensional arrays *)
Definition matmul (A B : matrix) : result matrix :=
  if Nat.eqb (ncols A) (nrows B)
  then Ok (map (fun row => map (fun j => dot row (col j B))
                               (seq 0 (ncols B))) A)
  else Raise ValueError.

Definition map2 (f : F -> F -> F) (A B : matrix) : matrix :=
  map (fun p => map (fun q => f (fst q) (snd q)) (combine (fst p) (snd p)))
      (combine A B).

Definition msub : matrix -> matrix -> matrix := map2 (fsub N).

Definition mmap (f : F -> F) (M : matrix) : matrix := map (map f) M.

(** [c * M] and [M * c] with a scalar [c] *)
Definition scale_l (c : F) (M : matrix) : matrix := mmap (fun x => fmul N c x) M.
Definition scale_r (M : matrix) (c : F) : matrix := mmap (fun x => fmul N x c) M.

(** [M ** 2], elementwise *)
Definition square (M : matrix) : matrix := mmap (fun x => fmul N x x) M.

(** [np.sqrt(v)] and [v ** 0.5] *)
Definition vsqrt (v : vector) : vector := map (fsqrt N) v.

(** [M[:, :d]] *)
Definition cols_upto (d : Z) (M : matrix) : matrix := map (py_upto d) M.

(** [np.hstack]: the row counts must agree *)
Fixpoint hstack (Ms : list matrix) : result matrix :=
  match Ms with
  | [] => Raise ValueError
  | M :: rest =>
      match rest with
      | [] => Ok M
      | _ =>
          match hstack rest with
          | Raise e => Raise e
          | Ok R =>
              if Nat.eqb (nrows M) (nrows R)
              then Ok (map (fun p => fst p ++ snd p) (combine M R))
              else Raise ValueError
          end
      end
  end.

(** The blocks side by side: row [i] of the result is row [i] of every
    block, in the order of the blocks. *)
Definition hconcat (n : nat) (Ms : list matrix) : matrix :=
  map (fun i => concat (map (fun B => nth i B []) Ms)) (seq 0 n).

(** A Python list of two-dimensional arrays used as one array operand:
    the shapes must agree. *)
Definition shape_eqb (a b : nat * nat) : bool :=
  Nat.eqb (fst a) (fst b) && Nat.eqb (snd a) (snd b).

Definition as_tensor (T : list matrix) : result (list matrix) :=
  match T with
  | [] => Ok []
  | M :: rest =>
      if forallb (fun X => shape_eqb (shape X) (shape M)) rest
      then Ok T else Raise ValueError
  end.

(** [A @ T] and [T @ B] with [T] three-dimensional: the product is taken
    slice by slice. *)
Definition matmul_l (A : matrix) (T : list matrix) : result (list matrix) :=
  mapM (fun G => matmul A G) T.

Definition matmul_r (T : list matrix) (B : matrix) : result (list matrix) :=
  mapM (fun G => matmul G B) T.

(** [np.linalg.norm] of the entries of a row (order 2) or of a whole
    matrix (Frobenius). *)
Definition norm2 (v : vector) : F :=
  fsqrt N (sum (map (fun x => fmul N x x) v)).

Definition norm_fro (M : matrix) : F := norm2 (concat M).

End Arrays.
End Mat.

(** ** Objects with attributes

    A method is a function from the object to a result and the object after
    the call; an exception leaves the assignments made so far in place. *)

Definition M (S A : Type) : Type := S -> result A * S.

Definition ret {S A} (a : A) : M S A := fun s => (Ok a, s).

Definition bind {S A B} (c : M S A) (k : A -> M S B) : M S B :=
  fun s =>
    match c s with
    | (Ok a, s') => k a s'
    | (Raise e, s') => (Raise e, s')
    end.

Definition raise {S A} (e : exn) : M S A := fun s => (Raise e, s).

Definition lift {S A} (r : result A) : M S A := fun s => (r, s).

Definition get {S} : M S S := fun s => (Ok s, s).

Definition modify {S} (f : S -> S) : M S unit := fun s => (Ok tt, f s).

(** [self.attr] for an attribute that exists only once it has been assigned *)
Definition getattr {S A} (attr : S -> option A) : M S A :=
  fun s =>
    match attr s with
    | Some a => (Ok a, s)
    | None => (Raise AttributeError, s)
    end.

(** [try: body / except e: handler / else: orelse].  The handler sees only
    the exception [e]; what [orelse] raises is not handled. *)
Definition try_except_else {S A B} (body : M S A) (e : exn) (handler : M S B)
    (orelse : A -> M S B) : M S B :=
  fun s =>
    match body s with
    | (Ok a, s') => orelse a s'
    | (Raise e', s') => if exn_eqb e' e then handler s' else (Raise e', s')
    end.

Declare Scope py_scope.
Delimit Scope py_scope with py.
Notation "x <- c ;; k" := (bind c (fun x => k))
  (at level 61, c at next level, right associativity) : py_scope.
Notation "' p <- c ;; k" := (bind c (fun x => let 'p := x in k))
  (at level 61, p pattern, c at next level, right associativity) : py_scope.
Notation "c ;; k" := (bind c (fun _ => k))
  (at level 61, right associativity) : py_scope.

(** ** Values the methods receive, and the collaborators they call *)

Section Values.
Variable N : Numeric.

(** A numpy array: ranks one to three carry their entries; of the other
    ranks only the rank and the first extent are ever looked at. *)
Inductive ndarray : Type :=
| Arr0 (x : F N)
| Arr1 (v : Mat.vector N)
| Arr2 (A : Mat.matrix N)
| Arr3 (T : list (Mat.matrix N))
| ArrHi (rank_minus_4 : nat) (extent0 : nat).

Definition ndim (a : ndarray) : nat :=
  match a with
  | Arr0 _ => 0
  | Arr1 _ => 1
  | Arr2 _ => 2
  | Arr3 _ => 3
  | ArrHi k _ => 4 + k
  end.

(** [a.shape[0]] *)
Definition shape0 (a : ndarray) : result nat :=
  match a with
  | Arr0 _ => Raise IndexError
  | Arr1 v => Ok (length v)
  | Arr2 A => Ok (Mat.nrows A)
  | Arr3 T => Ok (length T)
  | ArrHi _ n => Ok n
  end.

(** One graph of a collection: an adjacency matrix or a networkx graph. *)
Inductive graph_like (nxgraph : Type) : Type :=
| GArr (A : Mat.matrix N)
| GNx (g : nxgraph).

(** The argument [graphs] of [fit] and [transform]. *)
Inductive py_graphs (nxgraph : Type) : Type :=
| PyList (gs : list (graph_like nxgraph))     (* a list or a tuple *)
| PyArray (a : ndarray)
| PyOther.

(** What [_check_input_graphs] hands back: a Python list of arrays, or one
    three-dimensional array. *)
Inductive checked : Type :=
| OutList (gs : list (Mat.matrix N))
| OutArr (T : list (Mat.matrix N)).

Definition graphs_of (out : checked) : list (Mat.matrix N) :=
  match out with
  | OutList gs => gs
  | OutArr T => T
  end.

(** The same value passed as [graphs] to another method. *)
Definition as_graphs (nxgraph : Type) (out : checked) : py_graphs nxgraph :=
  match out with
  | OutList gs => PyList (map (@GArr nxgraph) gs)
  | OutArr T => PyArray nxgraph (Arr3 T)
  end.

(** The argument [X] of [ClassicalMDS.fit]. *)
Inductive py_value : Type :=
| PyNd (a : ndarray)
| PyNotArray.

(** Functions of the package and of its dependencies that the three modules
    import: [utils.import_graph] (on one graph, and on a three-dimensional
    array), [utils.is_almost_symmetric], [utils.is_symmetric],
    [svd.selectSVD], [svd.select_dimension] and sklearn's [check_array]
    (with [allow_nd=False], whose result is two-dimensional, and with
    [allow_nd=True]).  A keyword argument that a call leaves out is [None].
    [selectSVD] returns [(U, D, V)] with the right singular vectors as the
    rows of [V]. *)
Record Library : Type := {
  nxgraph : Type;
  import_graph : graph_like nxgraph -> result (Mat.matrix N);
  import_graph_3d : list (Mat.matrix N) -> result (list (Mat.matrix N));
  is_almost_symmetric : Mat.matrix N -> bool;
  is_symmetric : Mat.matrix N -> bool;
  selectSVD :
    Mat.matrix N -> forall (n_components n_elbows : option Z)
      (algorithm : option String.string) (n_iter : option Z),
      result (Mat.matrix N * Mat.vector N * Mat.matrix N);
  select_dimension :
    Mat.vector N -> forall (n_elbows : Z), result (list Z * list (F N));
  check_array_2d : ndarray -> result (Mat.matrix N);
  check_array_nd : ndarray -> result ndarray
}.

End Values.

Arguments Arr0 {N} x.
Arguments Arr1 {N} v.
Arguments Arr2 {N} A.
Arguments Arr3 {N} T.
Arguments ArrHi {N} rank_minus_4 extent0.
Arguments GArr {N nxgraph} A.
Arguments GNx {N nxgraph} g.
Arguments PyList {N nxgraph} gs.
Arguments PyArray {N nxgraph} a.
Arguments PyOther {N nxgraph}.
Arguments OutList {N} gs.
Arguments OutArr {N} T.
Arguments PyNd {N} a.
Arguments PyNotArray {N}.
Arguments graphs_of {N} out.
Arguments as_graphs {N} nxgraph out.
Arguments ndim {N} a.
Arguments shape0 {N} a.

(** ** base_mase.py: [BaseEmbed] and [BaseEmbedMulti] *)

Module BaseEmbed.
Section Class.
Variable N : Numeric.
Variable L : Library N.

(** An embedder object: the constructor's parameters, then the attributes
    that [fit] assigns. *)
Record t : Type := {
  n_components : option Z;
  n_elbows : Z;
  algorithm : String.string;
  n_iter : Z;
  check_lcc : bool;
  scaled : bool;
  n_components_ : option nat;
  singular_values_ : option (Mat.vector N);
  n_graphs_ : option nat;
  n_vertices_ : option nat;
  undirected : option bool;
  latent_left_ : option (Mat.matrix N);
  latent_right_ : option (option (Mat.matrix N));   (* may hold Python's None *)
  scores_ : option (list (Mat.matrix N))
}.

Definition set_n_components_ (v : nat) (s : t) : t :=
  {| n_components := n_components s; n_elbows := n_elbows s;
     algorithm := algorithm s; n_iter := n_iter s; check_lcc := check_lcc s;
     scaled := scaled s; n_components_ := Some v;
     singular_values_ := singular_values_ s; n_graphs_ := n_graphs_ s;
     n_vertices_ := n_vertices_ s; undirected := undirected s;
     latent_left_ := latent_left_ s; latent_right_ := latent_right_ s;
     scores_ := scores_ s |}.

Definition set_singular_values_ (v : Mat.vector N) (s : t) : t :=
  {| n_components := n_components s; n_elbows := n_elbows s;
     algorithm := algorithm s; n_iter := n_iter s; check_lcc := check_lcc s;
     scaled := scaled s; n_components_ := n_components_ s;
     singular_values_ := Some v; n_graphs_ := n_graphs_ s;
     n_vertices_ := n_vertices_ s; undirected := undirected s;
     latent_left_ := latent_left_ s; latent_right_ := latent_right_ s;
     scores_ := scores_ s |}.

Definition set_n_graphs_ (v : nat) (s : t) : t :=
  {| n_components := n_components s; n_elbows := n_elbows s;
     algorithm := algorithm s; n_iter := n_iter s; check_lcc := check_lcc s;
     scaled := scaled s; n_components_ := n_components_ s;
     singular_values_ := singular_values_ s; n_graphs_ := Some v;
     n_vertices_ := n_vertices_ s; undirected := undirected s;
     latent_left_ := latent_left_ s; latent_right_ := latent_right_ s;
     scores_ := scores_ s |}.

Definition set_n_vertices_ (v : nat) (s : t) : t :=
  {| n_components := n_components s; n_elbows := n_elbows s;
     algorithm := algorithm s; n_iter := n_iter s; check_lcc := check_lcc s;
     scaled := scaled s; n_components_ := n_components_ s;
     singular_values_ := singular_values_ s; n_graphs_ := n_graphs_ s;
     n_vertices_ := Some v; undirected := undirected s;
     latent_left_ := latent_left_ s; latent_right_ := latent_right_ s;
     scores_ := scores_ s |}.

Definition set_undirected (v : bool) (s : t) : t :=
  {| n_components := n_components s; n_elbows := n_elbows s;
     algorithm := algorithm s; n_iter := n_iter s; check_lcc := check_lcc s;
     scaled := scaled s; n_components_ := n_components_ s;
     singular_values_ := singular_values_ s; n_graphs_ := n_graphs_ s;
     n_vertices_ := n_vertices_ s; undirected := Some v;
     latent_left_ := latent_left_ s; latent_right_ := latent_right_ s;
     scores_ := scores_ s |}.

Definition set_latent_left_ (v : Mat.matrix N) (s : t) : t :=
  {| n_components := n_components s; n_elbows := n_elbows s;
     algorithm := algorithm s; n_iter := n_iter s; check_lcc := check_lcc s;
     scaled := scaled s; n_components_ := n_components_ s;
     singular_values_ := singular_values_ s; n_graphs_ := n_graphs_ s;
     n_vertices_ := n_vertices_ s; undirected := undirected s;
     latent_left_ := Some v; latent_right_ := latent_right_ s;
     scores_ := scores_ s |}.

Definition set_latent_right_ (v : option (Mat.matrix N)) (s : t) : t :=
  {| n_components := n_components s; n_elbows := n_elbows s;
     algorithm := algorithm s; n_iter := n_iter s; check_lcc := check_lcc s;
     scaled := scaled s; n_components_ := n_components_ s;
     singular_values_ := singular_values_ s; n_graphs_ := n_graphs_ s;
     n_vertices_ := n_vertices_ s; undirected := undirected s;
     latent_left_ := latent_left_ s; latent_right_ := Some v;
     scores_ := scores_ s |}.

Definition set_scores_ (v : list (Mat.matrix N)) (s : t) : t :=
  {| n_components := n_components s; n_elbows := n_elbows s;
     algorithm := algorithm s; n_iter := n_iter s; check_lcc := check_lcc s;
     scaled := scaled s; n_components_ := n_components_ s;
     singular_values_ := singular_values_ s; n_graphs_ := n_graphs_ s;
     n_vertices_ := n_vertices_ s; undirected := undirected s;
     latent_left_ := latent_left_ s; latent_right_ := latent_right_ s;
     scores_ := Some v |}.

Local Open Scope py_scope.

(** [BaseEmbed._reduce_dim] (base_mase.py, lines 81-105) *)
Definition _reduce_dim (A : Mat.matrix N) : M t unit :=
  self <- get ;;
  ' (U, D, V) <- lift (selectSVD L A (n_components self)
                         (Some (n_elbows self)) (Some (algorithm self))
                         (Some (n_iter self))) ;;
  modify (set_n_components_ (length D)) ;;
  modify (set_singular_values_ D) ;;
  left <- lift (Mat.matmul U (Mat.diag (Mat.vsqrt D))) ;;
  modify (set_latent_left_ left) ;;
  if negb (is_almost_symmetric L A) then
    right <- lift (Mat.matmul (Mat.transpose V) (Mat.diag (Mat.vsqrt D))) ;;
    modify (set_latent_right_ (Some right))
  else
    modify (set_latent_right_ None).

(** [BaseEmbed._fit_transform] (lines 139-147), over the [fit] of the class
    of the object. *)
Definition _fit_transform (fit : py_graphs N (nxgraph L) -> M t unit)
    (graph : py_graphs N (nxgraph L)) : M t (list (Mat.matrix N)) :=
  fit graph ;;
  getattr scores_.

End Class.

Arguments n_components {N} t.
Arguments n_elbows {N} t.
Arguments algorithm {N} t.
Arguments n_iter {N} t.
Arguments check_lcc {N} t.
Arguments scaled {N} t.
Arguments n_components_ {N} t.
Arguments singular_values_ {N} t.
Arguments n_graphs_ {N} t.
Arguments n_vertices_ {N} t.
Arguments undirected {N} t.
Arguments latent_left_ {N} t.
Arguments latent_right_ {N} t.
Arguments scores_ {N} t.
Arguments set_n_components_ {N} v s.
Arguments set_singular_values_ {N} v s.
Arguments set_n_graphs_ {N} v s.
Arguments set_n_vertices_ {N} v s.
Arguments set_undirected {N} v s.
Arguments set_latent_left_ {N} v s.
Arguments set_latent_right_ {N} v s.
Arguments set_scores_ {N} v s.
End BaseEmbed.

Module BaseEmbedMulti.
Import BaseEmbed.
Section Class.
Variable N : Numeric.
Variable L : Library N.

Local Open Scope py_scope.

(** [BaseEmbedMulti._check_input_graphs] (lines 188-243) *)
Definition _check_input_graphs (graphs : py_graphs N (nxgraph L))
  : M (BaseEmbed.t N) (checked N) :=
  out <- match graphs with
         | PyList gs =>
             if length gs <=? 1 then raise ValueError
             else
               out <- lift (mapM (import_graph L) gs) ;;
               ret (OutList out)
         | PyArray a =>
             if negb (ndim a =? 3) then raise ValueError
             else
               match a with
               | Arr3 T =>
                   if length T <=? 1 then raise ValueError
                   else
                     out <- lift (import_graph_3d L T) ;;
                     ret (OutArr out)
               | _ => raise ValueError
               end
         | PyOther => raise TypeError
         end ;;
  modify (set_n_graphs_ (length (graphs_of out))) ;;
  match graphs_of out with
  | [] => raise IndexError
  | g0 :: _ => modify (set_n_vertices_ (Mat.nrows g0))
  end ;;
  ret out.

End Class.
End BaseEmbedMulti.

(** ** mase.py: [MultipleASE] *)

Module MultipleASE.
Import BaseEmbed.
Section Class.
Variable N : Numeric.
Variable L : Library N.

Definition svd_triple : Type := (Mat.matrix N * Mat.vector N * Mat.matrix N)%type.

(** [MultipleASE.__init__] (mase.py, lines 89-107); [scaled] is a [bool], so
    the type test passes, and [check_lcc] keeps the default of the base
    class. *)
Definition __init__ (n_components : option Z) (n_elbows : Z)
    (algorithm : String.string) (n_iter : Z) (scaled : bool) : BaseEmbed.t N :=
  {| n_components := n_components; n_elbows := n_elbows;
     algorithm := algorithm; n_iter := n_iter; check_lcc := true;
     scaled := scaled; n_components_ := None; singular_values_ := None;
     n_graphs_ := None; n_vertices_ := None; undirected := None;
     latent_left_ := None; latent_right_ := None; scores_ := None |}.

Local Open Scope res.

(** Lines 114-122: one decomposition a graph, each at the rank
    [rank], with the algorithm and the iteration count of the object. *)
Definition embed_each (self : BaseEmbed.t N) (rank : Z)
    (graphs : list (Mat.matrix N)) : result (list svd_triple) :=
  mapM (fun graph =>
          selectSVD L graph (Some rank) None (Some (algorithm self))
            (Some (n_iter self)))
       graphs.

(** Line 123: the triples are split into the lists [Us], [Ds] and [Vs];
    unpacking an empty [zip] is a [ValueError]. *)
Definition unzip3 (embeddings : list svd_triple)
  : result (list (Mat.matrix N) * list (Mat.vector N) * list (Mat.matrix N)) :=
  match embeddings with
  | [] => Raise ValueError
  | _ => Ok (map (fun e => fst (fst e)) embeddings,
             map (fun e => snd (fst e)) embeddings,
             map (fun e => snd e) embeddings)
  end.

(** Lines 126-135: the dimension kept of every graph's decomposition.  The
    elbows are integers, which [np.ceil] and [int] leave as they are. *)
Definition choose_dimension (self : BaseEmbed.t N) (Ds : list (Mat.vector N))
  : result Z :=
  match n_components self with
  | None =>
      embedding_dimensions <-
        mapM (fun D =>
                ' (elbows, _) <- select_dimension L D (n_elbows self) ;;
                py_last elbows)
             Ds ;;
      np_max embedding_dimensions
  | Some n => Ok n
  end.

(** Lines 137-153, left side *)
Definition stack_left (self : BaseEmbed.t N) (best_dimension : Z)
    (Us : list (Mat.matrix N)) (Ds : list (Mat.vector N))
  : result (Mat.matrix N) :=
  if negb (scaled self) then
    Mat.hstack (map (fun U => Mat.cols_upto best_dimension U) Us)
  else
    blocks <-
      mapM (fun UD =>
              Mat.matmul (Mat.cols_upto best_dimension (fst UD))
                (Mat.diag (Mat.vsqrt (py_upto best_dimension (snd UD)))))
           (combine Us Ds) ;;
    Mat.hstack blocks.

(** Lines 137-153, right side *)
Definition stack_right (self : BaseEmbed.t N) (best_dimension : Z)
    (Vs : list (Mat.matrix N)) (Ds : list (Mat.vector N))
  : result (Mat.matrix N) :=
  if negb (scaled self) then
    Mat.hstack
      (map (fun V => Mat.cols_upto best_dimension (Mat.transpose V)) Vs)
  else
    blocks <-
      mapM (fun VD =>
              Mat.matmul (Mat.cols_upto best_dimension (Mat.transpose (fst VD)))
                (Mat.diag (Mat.vsqrt (py_upto best_dimension (snd VD)))))
           (combine Vs Ds) ;;
    Mat.hstack blocks.

(** Lines 157-171: a decomposition of the second stage, of which only the
    left factor is kept. *)
Definition joint_basis (self : BaseEmbed.t N) (stacked : Mat.matrix N)
  : result (Mat.matrix N) :=
  ' (hat, _, _) <- selectSVD L stacked (n_components self)
                     (Some (n_elbows self)) (Some (algorithm self))
                     (Some (n_iter self)) ;;
  Ok hat.

Local Close Scope res.
Local Open Scope py_scope.

(** [MultipleASE._reduce_dim] (lines 109-172) *)
Definition _reduce_dim (graphs : list (Mat.matrix N))
  : M (BaseEmbed.t N) (Mat.matrix N * Mat.matrix N) :=
  self <- get ;;
  n_vertices <- getattr n_vertices_ ;;
  rank <- lift (ceil_log2 n_vertices) ;;
  embeddings <- lift (embed_each self rank graphs) ;;
  ' (Us, Ds, Vs) <- lift (unzip3 embeddings) ;;
  best_dimension <- lift (choose_dimension self Ds) ;;
  Us' <- lift (stack_left self best_dimension Us Ds) ;;
  Vs' <- lift (stack_right self best_dimension Vs Ds) ;;
  Uhat <- lift (joint_basis self Us') ;;
  Vhat <- lift (joint_basis self Vs') ;;
  ret (Uhat, Vhat).

(** [left.T @ graphs], with [graphs] a list of arrays or a three-dimensional
    array *)
Definition project_left (left : Mat.matrix N) (graphs : list (Mat.matrix N))
  : result (list (Mat.matrix N)) :=
  rbind (Mat.as_tensor graphs) (fun T => Mat.matmul_l (Mat.transpose left) T).

(** [left.T @ graphs @ right] *)
Definition project (left : Mat.matrix N) (graphs : list (Mat.matrix N))
    (right : Mat.matrix N) : result (list (Mat.matrix N)) :=
  rbind (project_left left graphs) (fun P => Mat.matmul_r P right).

(** [MultipleASE.fit] (lines 174-206) *)
Definition fit (graphs : py_graphs N (nxgraph L)) : M (BaseEmbed.t N) unit :=
  graphs <- BaseEmbedMulti._check_input_graphs L graphs ;;
  let undirected := forallb (is_almost_symmetric L) (graphs_of graphs) in
  modify (set_undirected undirected) ;;
  ' (Uhat, Vhat) <- _reduce_dim (graphs_of graphs) ;;
  modify (set_latent_left_ Uhat) ;;
  if negb undirected then
    modify (set_latent_right_ (Some Vhat)) ;;
    scores <- lift (project Uhat (graphs_of graphs) Vhat) ;;
    modify (set_scores_ scores)
  else
    modify (set_latent_right_ None) ;;
    scores <- lift (project Uhat (graphs_of graphs) Uhat) ;;
    modify (set_scores_ scores).

(** [MultipleASE.fit_transform] (lines 208-229) *)
Definition fit_transform (graphs : py_graphs N (nxgraph L))
  : M (BaseEmbed.t N) (list (Mat.matrix N)) :=
  BaseEmbed._fit_transform L fit graphs.

(** The right operand of the product on line 263: the attribute may be
    missing, or hold [None], which is no operand of [@]. *)
Definition latent_right_operand : M (BaseEmbed.t N) (Mat.matrix N) :=
  r <- getattr latent_right_ ;;
  match r with
  | Some V => ret V
  | None => raise ValueError
  end.

(** [MultipleASE.transform] (lines 231-266) *)
Definition transform (graphs : py_graphs N (nxgraph L))
  : M (BaseEmbed.t N) (list (Mat.matrix N)) :=
  graphs <- BaseEmbedMulti._check_input_graphs L graphs ;;
  let undirected := forallb (is_almost_symmetric L) (graphs_of graphs) in
  self_undirected <- getattr BaseEmbed.undirected ;;
  (if negb (Bool.eqb self_undirected undirected) then raise TypeError
   else ret tt) ;;
  try_except_else (getattr latent_left_) NameError
    (raise NameError)
    (fun _ =>
       if negb undirected then
         left <- getattr latent_left_ ;;
         P <- lift (project_left left (graphs_of graphs)) ;;
         right <- latent_right_operand ;;
         scores <- lift (Mat.matmul_r P right) ;;
         ret tt
       else
         left <- getattr latent_left_ ;;
         scores <- lift (project left (graphs_of graphs) left) ;;
         ret tt) ;;
  BaseEmbed._fit_transform L fit (as_graphs (nxgraph L) graphs).

(** What [MultipleASE.get_latent] returns: the array [latent_left_] alone,
    or the tuple of [latent_left_] and what [latent_right_] holds. *)
Inductive latent_positions : Type :=
| Single (latent_left : Mat.matrix N)
| Tuple (latent_left : Mat.matrix N) (latent_right : option (Mat.matrix N)).

(** [MultipleASE.get_latent] (lines 268-279) *)
Definition get_latent : M (BaseEmbed.t N) latent_positions :=
  r <- getattr latent_right_ ;;
  match r with
  | None => left <- getattr latent_left_ ;; ret (Single left)
  | Some _ =>
      left <- getattr latent_left_ ;;
      right <- getattr latent_right_ ;;
      ret (Tuple left right)
  end.

End Class.
End MultipleASE.

(** ** mds.py: [ClassicalMDS] *)

Module ClassicalMDS.
Section Class.
Variable N : Numeric.
Variable L : Library N.

Record t : Type := {
  n_components : option Z;
  dissimilarity : String.string;
  n_components_ : option nat;
  components_ : option (Mat.matrix N);
  singular_values_ : option (Mat.vector N);
  dissimilarity_matrix_ : option (Mat.matrix N)
}.

Definition set_n_components_ (v : nat) (s : t) : t :=
  {| n_components := n_components s; dissimilarity := dissimilarity s;
     n_components_ := Some v; components_ := components_ s;
     singular_values_ := singular_values_ s;
     dissimilarity_matrix_ := dissimilarity_matrix_ s |}.

Definition set_components_ (v : Mat.matrix N) (s : t) : t :=
  {| n_components := n_components s; dissimilarity := dissimilarity s;
     n_components_ := n_components_ s; components_ := Some v;
     singular_values_ := singular_values_ s;
     dissimilarity_matrix_ := dissimilarity_matrix_ s |}.

Definition set_singular_values_ (v : Mat.vector N) (s : t) : t :=
  {| n_components := n_components s; dissimilarity := dissimilarity s;
     n_components_ := n_components_ s; components_ := components_ s;
     singular_values_ := Some v;
     dissimilarity_matrix_ := dissimilarity_matrix_ s |}.

Definition set_dissimilarity_matrix_ (v : Mat.matrix N) (s : t) : t :=
  {| n_components := n_components s; dissimilarity := dissimilarity s;
     n_components_ := n_components_ s; components_ := components_ s;
     singular_values_ := singular_values_ s;
     dissimilarity_matrix_ := Some v |}.

(** [_get_centering_matrix] (mds.py, lines 23-39); [1 / 0] raises. *)
Definition _get_centering_matrix (n : nat) : result (Mat.matrix N) :=
  match n with
  | O => Raise ZeroDivisionError
  | _ =>
      Ok (Mat.msub (Mat.identity N n)
            (Mat.scale_l (fdiv N (f1 N) (f_of_nat N n)) (Mat.ones N n n)))
  end.

(** [ClassicalMDS.__init__] (lines 87-103); [n_components] is an integer or
    [None], so the type test passes. *)
Definition __init__ (n_components : option Z) (dissimilarity : String.string)
  : result t :=
  rbind
    match n_components with
    | Some n => if (n <=? 0)%Z then Raise ValueError else Ok tt
    | None => Ok tt
    end
    (fun _ =>
       if String.eqb dissimilarity "euclidean"%string
          || String.eqb dissimilarity "precomputed"%string
       then Ok {| n_components := n_components; dissimilarity := dissimilarity;
                  n_components_ := None; components_ := None;
                  singular_values_ := None; dissimilarity_matrix_ := None |}
       else Raise ValueError).

Definition vsub (u v : Mat.vector N) : Mat.vector N :=
  map (fun q => fsub N (fst q) (snd q)) (combine u v).

(** [ClassicalMDS._compute_euclidean_distances] (lines 105-138): every row
    of [out] is assigned once, and row [i] holds the norms of [X[j] - X[i]].  A rank other than two selects the
    axes [(1, 2)], which only a three-dimensional array has to offer in the
    shape that a row of [out] takes. *)
Definition _compute_euclidean_distances (X : ndarray N)
  : result (Mat.matrix N) :=
  match X with
  | Arr0 _ => Raise IndexError
  | Arr2 A =>
      Ok (map (fun Xi => map (fun Xj => Mat.norm2 (vsub Xj Xi)) A) A)
  | Arr3 T =>
      Ok (map (fun Xi => map (fun Xj => Mat.norm_fro (Mat.msub Xj Xi)) T) T)
  | Arr1 v => match v with [] => Ok [] | _ => Raise ValueError end
  | ArrHi _ n => match n with O => Ok [] | _ => Raise ValueError end
  end.

Local Open Scope py_scope.

(** Lines 160-164 *)
Definition check_n_components (X : ndarray N) : M t unit :=
  self <- get ;;
  match n_components self with
  | Some n =>
      n_samples <- lift (shape0 X) ;;
      if (Z.of_nat n_samples <? n)%Z then raise ValueError else ret tt
  | None => ret tt
  end.

(** Lines 166-176; a [dissimilarity] that is neither of the two words
    leaves the local variable unbound. *)
Definition handle_dissimilarity (X : ndarray N) : M t (Mat.matrix N) :=
  self <- get ;;
  if String.eqb (dissimilarity self) "precomputed"%string then
    dissimilarity_matrix <- lift (check_array_2d L X) ;;
    if negb (is_symmetric L dissimilarity_matrix) then raise ValueError
    else ret dissimilarity_matrix
  else if String.eqb (dissimilarity self) "euclidean"%string then
    X' <- lift (check_array_nd L X) ;;
    lift (_compute_euclidean_distances X')
  else raise NameError.

(** Line 179: [J @ (dissimilarity_matrix ** 2) @ J * -0.5] parses as
    [((J @ D**2) @ J) * (-0.5)]. *)
Definition double_center (J D : Mat.matrix N) : result (Mat.matrix N) :=
  rbind (Mat.matmul J (Mat.square D)) (fun JD =>
  rbind (Mat.matmul JD J) (fun JDJ =>
  Ok (Mat.scale_r JDJ (f_neg_half N)))).

(** [ClassicalMDS.fit] (lines 140-194) *)
Definition fit (X : py_value N) : M t unit :=
  match X with
  | PyNotArray => raise ValueError
  | PyNd X =>
      check_n_components X ;;
      dissimilarity_matrix <- handle_dissimilarity X ;;
      J <- lift (_get_centering_matrix (Mat.nrows dissimilarity_matrix)) ;;
      B <- lift (double_center J dissimilarity_matrix) ;;
      self <- get ;;
      let algorithm :=
        match n_components self with
        | Some 1%Z => "full"%string
        | _ => "randomized"%string
        end in
      ' (U, D, V) <- lift (selectSVD L B (n_components self) None
                             (Some algorithm) None) ;;
      modify (set_n_components_ (length D)) ;;
      modify (set_components_ U) ;;
      modify (set_singular_values_ (Mat.vsqrt D)) ;;
      modify (set_dissimilarity_matrix_ dissimilarity_matrix)
  end.

(** [ClassicalMDS.fit_transform] (lines 196-221) *)
Definition fit_transform (X : py_value N) : M t (Mat.matrix N) :=
  fit X ;;
  components <- getattr components_ ;;
  singular_values <- getattr singular_values_ ;;
  lift (Mat.matmul components (Mat.diag singular_values)).

(** What [ClassicalMDS.transform] returns: the embedded input, or the
    [RuntimeError] object that its handler returns without raising it. *)
Inductive transformed : Type :=
| Embedded (X_new : Mat.matrix N)
| ReturnedRuntimeError.

(** [ClassicalMDS.transform] (lines 222-251) *)
Definition transform (X : py_value N) : M t transformed :=
  try_except_else (getattr components_) ValueError
    (ret ReturnedRuntimeError)
    (fun _ =>
       fit X ;;
       components <- getattr components_ ;;
       singular_values <- getattr singular_values_ ;;
       X_new <- lift (Mat.matmul components (Mat.diag singular_values)) ;;
       ret (Embedded X_new)).

End Class.

Arguments n_components {N} t.
Arguments dissimilarity {N} t.
Arguments n_components_ {N} t.
Arguments components_ {N} t.
Arguments singular_values_ {N} t.
Arguments dissimilarity_matrix_ {N} t.
End ClassicalMDS.

(** * Vocabulary of the statements *)

Section Vocabulary.
Variable N : Numeric.
Variable L : Library N.

(** The object after the input check and the assignment of [undirected]. *)
Definition checked_state (m1 : BaseEmbed.t N) (out : checked N) : BaseEmbed.t N :=
  BaseEmbed.set_undirected (forallb (is_almost_symmetric L) (graphs_of out)) m1.

(** The projection of the new graphs onto the fitted basis, as lines 262-265
    compute it. *)
Definition fitted_projection (m : BaseEmbed.t N) (graphs : list (Mat.matrix N))
  : result (list (Mat.matrix N)) :=
  match BaseEmbed.latent_left_ m, BaseEmbed.undirected m with
  | Some Ul, Some true => MultipleASE.project Ul graphs Ul
  | Some Ul, Some false =>
      match BaseEmbed.latent_right_ m with
      | Some (Some Vr) => MultipleASE.project Ul graphs Vr
      | _ => Raise AttributeError
      end
  | _, _ => Raise AttributeError
  end.

(** A matrix with [n] rows of [c] entries each. *)
Definition has_shape (n c : nat) (B : Mat.matrix N) : Prop :=
  Mat.nrows B = n /\ Forall (fun row => length row = c) B.

(** The object after a successful [ClassicalMDS.fit]. *)
Definition mds_fitted (m : ClassicalMDS.t N) (U : Mat.matrix N)
    (S : Mat.vector N) (D : Mat.matrix N) : ClassicalMDS.t N :=
  ClassicalMDS.set_dissimilarity_matrix_ D
    (ClassicalMDS.set_singular_values_ (Mat.vsqrt S)
       (ClassicalMDS.set_components_ U
          (ClassicalMDS.set_n_components_ (length S) m))).

(** The algorithm that [ClassicalMDS.fit] asks of the solver. *)
Definition mds_algorithm (m : ClassicalMDS.t N) : string :=
  match ClassicalMDS.n_components m with
  | Some 1%Z => "full"%string
  | _ => "randomized"%string
  end.

(** The exception with which [_check_input_graphs] turns a collection away
    before it imports anything, if it does. *)
Definition rejected_input (graphs : py_graphs N (nxgraph L)) : option exn :=
  match graphs with
  | PyList gs => if length gs <=? 1 then Some ValueError else None
  | PyArray a =>
      match a with
      | Arr3 T => if length T <=? 1 then Some ValueError else None
      | _ => Some ValueError
      end
  | PyOther => Some TypeError
  end.

(** Entry [M[i, j]] *)
Definition entry (i j : nat) (M : Mat.matrix N) : F N :=
  nth j (nth i M []) (f0 N).

(** The constructor's parameters of an embedder, and the two attributes that
    only the single-graph [_reduce_dim] assigns. *)
Definition same_parameters (m m' : BaseEmbed.t N) : Prop :=
  BaseEmbed.n_components m' = BaseEmbed.n_components m /\
  BaseEmbed.n_elbows m' = BaseEmbed.n_elbows m /\
  BaseEmbed.algorithm m' = BaseEmbed.algorithm m /\
  BaseEmbed.n_iter m' = BaseEmbed.n_iter m /\
  BaseEmbed.check_lcc m' = BaseEmbed.check_lcc m /\
  BaseEmbed.scaled m' = BaseEmbed.scaled m /\
  BaseEmbed.n_components_ m' = BaseEmbed.n_components_ m /\
  BaseEmbed.singular_values_ m' = BaseEmbed.singular_values_ m.

(** The laws of the scalars that make a distance of a point to itself zero
    and a distance independent of the order of its two points. *)
Definition distance_laws : Prop :=
  (forall x, fsub N x x = f0 N) /\
  fmul N (f0 N) (f0 N) = f0 N /\
  fadd N (f0 N) (f0 N) = f0 N /\
  fsqrt N (f0 N) = f0 N /\
  (forall a b,
     fmul N (fsub N a b) (fsub N a b) = fmul N (fsub N b a) (fsub N b a)).

(** Computations that read the object and leave it alone. *)
Definition reads_only {S A} (c : M S A) : Prop :=
  forall s, exists r, c s = (r, s).

End Vocabulary.

(** ** A concrete setting for examples

    Rational scalars, with a square root that is exact on squares of
    rationals, and stand-ins for the collaborators.  [selectSVD] here orders
    the rows of its argument by their norms and returns, for the rank [r], the
    unit vectors of the [r] heaviest rows as the columns of [U], their norms
    as [D] and the normalised rows as [V]: the singular value decomposition
    of a matrix whose rows are orthogonal to each other and of rational
    norm (in particular of a diagonal matrix), up to the order of equal
    singular values. *)

Module Demo.

Definition Q : Type := QArith_base.Q.

Definition q (z : Z) : Q := QArith_base.inject_Z z.

Definition qsqrt (x : Q) : Q :=
  Qreduction.Qred
    (QArith_base.Qmake (Z.sqrt (QArith_base.Qnum x))
                       (Pos.sqrt (QArith_base.Qden x))).

Definition rationals : Numeric :=
  {| F := Q;
     f0 := q 0;
     f1 := q 1;
     fadd := fun a b => Qreduction.Qred (QArith_base.Qplus a b);
     fsub := fun a b => Qreduction.Qred (QArith_base.Qminus a b);
     fmul := fun a b => Qreduction.Qred (QArith_base.Qmult a b);
     fdiv := fun a b => Qreduction.Qred (QArith_base.Qdiv a b);
     fsqrt := qsqrt;
     f_of_nat := fun n => q (Z.of_nat n);
     f_neg_half := QArith_base.Qmake (-1) 2 |}.

Definition matrix : Type := Mat.matrix rationals.
Definition vector : Type := Mat.vector rationals.

(** Integer entries *)
Definition mat (rows : list (list Z)) : matrix := map (map q) rows.

Definition is_square (A : matrix) : bool :=
  negb (Mat.nrows A =? 0) &&
  forallb (fun row => length row =? Mat.nrows A) A.

Definition import_graph_q (g : graph_like rationals Empty_set) : result matrix :=
  match g with
  | GArr A => if is_square A then Ok A else Raise ValueError
  | GNx g => match g with end
  end.

Definition import_graph_3d_q (T : list matrix) : result (list matrix) :=
  match T with
  | [] => Raise ValueError
  | A :: _ =>
      if forallb (fun B => is_square B && (Mat.nrows B =? Mat.nrows A)) T
      then Ok T else Raise ValueError
  end.

Definition tolerance : Q := QArith_base.Qmake 1 (10 ^ 15).

Definition close (a b : Q) : bool :=
  QArith_base.Qle_bool (QArith_base.Qminus a b) tolerance &&
  QArith_base.Qle_bool (QArith_base.Qminus b a) tolerance.

Definition all2 (p : Q -> Q -> bool) (A B : matrix) : bool :=
  Mat.shape_eqb (Mat.shape A) (Mat.shape B) &&
  forallb (fun rows =>
             forallb (fun e => p (fst e) (snd e))
                     (combine (fst rows) (snd rows)))
          (combine A B).

Definition is_almost_symmetric_q (A : matrix) : bool :=
  all2 close A (Mat.transpose A).

Definition is_symmetric_q (A : matrix) : bool :=
  all2 QArith_base.Qeq_bool A (Mat.transpose A).

Definition norm_sq (row : vector) : Q :=
  Mat.sum (N := rationals) (map (fun x => fmul rationals x x) row).

(** Insertion by decreasing weight; equal weights keep their order. *)
Fixpoint insert_by (x : nat * vector) (l : list (nat * vector))
  : list (nat * vector) :=
  match l with
  | [] => [x]
  | y :: t =>
      if QArith_base.Qle_bool (norm_sq (snd y)) (norm_sq (snd x))
      then x :: y :: t
      else y :: insert_by x t
  end.

Definition heaviest_first (A : matrix) : list (nat * vector) :=
  fold_right insert_by [] (combine (seq 0 (length A)) A).

Definition unit_column (n i : nat) : vector :=
  map (fun k => if k =? i then q 1 else q 0) (seq 0 n).

Definition normalise (row : vector) : vector :=
  let s := qsqrt (norm_sq row) in
  if QArith_base.Qeq_bool s (q 0) then row
  else map (fun x => fdiv rationals x s) row.

(** One elbow, at the largest drop between neighbours (counted from one). *)
Fixpoint largest_drop (D : vector) (pos best : Z) (gap : Q) : Z :=
  match D with
  | a :: (b :: _) as t =>
      let g := fsub rationals a b in
      if QArith_base.Qle_bool g gap then largest_drop t (pos + 1) best gap
      else largest_drop t (pos + 1) pos g
  | _ => best
  end.

Definition select_dimension_q (D : vector) (n_elbows : Z)
  : result (list Z * list Q) :=
  match D with
  | [] => Raise ValueError
  | _ =>
      if (n_elbows <? 1)%Z then Raise ValueError
      else Ok ([largest_drop D 1 (Z.of_nat (length D)) (q 0)], [q 0])
  end.

Definition decompose (A : matrix) (r : Z)
  : result (matrix * vector * matrix) :=
  if ((r <? 1) || (Z.of_nat (Nat.min (Mat.nrows A) (Mat.ncols A)) <? r))%Z
  then Raise ValueError
  else
    let kept := firstn (Z.to_nat r) (heaviest_first A) in
    Ok (Mat.transpose (map (fun p => unit_column (Mat.nrows A) (fst p)) kept),
        map (fun p => qsqrt (norm_sq (snd p))) kept,
        map (fun p => normalise (snd p)) kept).

Definition selectSVD_q (A : matrix) (n_components n_elbows : option Z)
    (algorithm : option string) (n_iter : option Z)
  : result (matrix * vector * matrix) :=
  match n_components with
  | Some r => decompose A r
  | None =>
      match decompose A (Z.of_nat (Nat.min (Mat.nrows A) (Mat.ncols A))) with
      | Raise e => Raise e
      | Ok (_, D, _) =>
          match select_dimension_q D (match n_elbows with Some k => k | None => 2 end) with
          | Raise e => Raise e
          | Ok (elbows, _) =>
              match py_last elbows with
              | Raise e => Raise e
              | Ok r => decompose A r
              end
          end
      end
  end.

Definition check_array_2d_q (a : ndarray rationals) : result matrix :=
  match a with
  | Arr2 A =>
      if negb (Mat.nrows A =? 0) && negb (Mat.ncols A =? 0)
         && forallb (fun row => length row =? Mat.ncols A) A
      then Ok A else Raise ValueError
  | _ => Raise ValueError
  end.

Definition check_array_nd_q (a : ndarray rationals)
  : result (ndarray rationals) :=
  match a with
  | Arr2 A => rbind (check_array_2d_q a) (fun A' => Ok (Arr2 A'))
  | Arr3 T => match T with [] => Raise ValueError | _ => Ok a end
  | _ => Raise ValueError
  end.

Definition library : Library rationals :=
  Build_Library (nxgraph := Empty_set)
    import_graph_q import_graph_3d_q is_almost_symmetric_q is_symmetric_q
    selectSVD_q select_dimension_q check_array_2d_q check_array_nd_q.

(** Inputs of the examples. *)

Definition graph := graph_like rationals Empty_set.

Definition heavy_first : matrix := mat [[2; 0]; [0; 1]]%Z.
Definition heavy_second : matrix := mat [[1; 0]; [0; 2]]%Z.
Definition directed2 : matrix := mat [[0; 4]; [1; 0]]%Z.
Definition three : matrix := mat [[3; 0; 0]; [0; 2; 0]; [0; 0; 1]]%Z.
Definition four : matrix :=
  mat [[4; 0; 0; 0]; [0; 3; 0; 0]; [0; 0; 2; 0]; [0; 0; 0; 1]]%Z.

Definition pair (A : matrix) : py_graphs rationals Empty_set :=
  PyList [GArr A; GArr A].

Definition ragged : py_graphs rationals Empty_set :=
  PyList [GArr heavy_first; GArr three].

(** [MultipleASE(n_components=...)], the other parameters at their
    defaults. *)
Definition mase (n_components : option Z) : BaseEmbed.t rationals :=
  MultipleASE.__init__ rationals n_components 2 "randomized" 5 false.

Definition fitted_on (graphs : py_graphs rationals Empty_set)
    (m : BaseEmbed.t rationals) : BaseEmbed.t rationals :=
  snd (MultipleASE.fit library graphs m).

Definition distances : matrix := mat [[0; 1]; [1; 0]]%Z.
Definition lopsided : matrix := mat [[0; 1]; [2; 0]]%Z.

(** [ClassicalMDS(n_components=1, dissimilarity='precomputed')] *)
Definition mds : ClassicalMDS.t rationals :=
  {| ClassicalMDS.n_components := Some 1%Z;
     ClassicalMDS.dissimilarity := "precomputed";
     ClassicalMDS.n_components_ := None;
     ClassicalMDS.components_ := None;
     ClassicalMDS.singular_values_ := None;
     ClassicalMDS.dissimilarity_matrix_ := None |}.

(** The value of a result that is known to be one. *)
Definition value_of {A} (default : A) (r : result A) : A :=
  match r with
  | Ok a => a
  | Raise _ => default
  end.

(** [MultipleASE()] after the input check on two copies of [four], with
    [undirected] assigned, and the bases that [_reduce_dim] computes. *)
Definition checked_four : BaseEmbed.t rationals :=
  BaseEmbed.set_undirected true
    (snd (BaseEmbedMulti._check_input_graphs library (pair four) (mase None))).

Definition bases_four : matrix * matrix :=
  value_of ([], []) (fst (MultipleASE._reduce_dim library [four; four] checked_four)).

(** The left factor and the singular values of [four] at the rank
    [ceil (log2 4) = 2]. *)
Definition four_U : matrix := mat [[1; 0]; [0; 1]; [0; 0]; [0; 0]]%Z.
Definition four_D : vector := [q 4; q 3].

(** The decomposition of [directed2] at the rank one. *)
Definition directed2_U : matrix := mat [[1]; [0]]%Z.
Definition directed2_D : vector := [q 4].
Definition directed2_V : matrix := mat [[0; 1]]%Z.

(** The model fitted on two copies of [heavy_first], a basis of the second
    unit vector, and two points at distance five. *)
Definition fitted : BaseEmbed.t rationals :=
  fitted_on (pair heavy_first) (mase (Some 1%Z)).

Definition right_basis : matrix := mat [[0]; [1]]%Z.
Definition points : matrix := mat [[0; 0]; [3; 4]]%Z.



End Demo.

(** * Properties *)

Section Properties.
Variable N : Numeric.
Variable L : Library N.

Import BaseEmbed.

Lemma bind_ok_inv {S A B} (c : M S A) (k : A -> M S B) s b s' :
  bind c k s = (Ok b, s') ->
  exists a s1, c s = (Ok a, s1) /\ k a s1 = (Ok b, s').
Proof.
  unfold bind. destruct (c s) as [[a|e] s1]; intros H.
  - exists a, s1. split; [reflexivity | exact H].
  - discriminate.
Qed.

Lemma bind_run {S A B} (c : M S A) (k : A -> M S B) s a s1 :
  c s = (Ok a, s1) -> bind c k s = k a s1.
Proof. unfold bind. intros ->. reflexivity. Qed.

Lemma bind_raise {S A B} (c : M S A) (k : A -> M S B) s e s1 :
  c s = (Raise e, s1) -> bind c k s = (Raise e, s1).
Proof. unfold bind. intros ->. reflexivity. Qed.

(** What [_check_input_graphs] leaves alone. *)
Definition same_fit (m m1 : BaseEmbed.t N) : Prop :=
  undirected m1 = undirected m /\
  latent_left_ m1 = latent_left_ m /\
  latent_right_ m1 = latent_right_ m /\
  scores_ m1 = scores_ m /\
  n_components m1 = n_components m /\
  n_elbows m1 = n_elbows m /\
  algorithm m1 = algorithm m /\
  n_iter m1 = n_iter m /\
  scaled m1 = scaled m.

Lemma same_fit_refl m : same_fit m m.
Proof. repeat split. Qed.

Lemma check_frame graphs m r m1 :
  BaseEmbedMulti._check_input_graphs L graphs m = (r, m1) -> same_fit m m1.
Proof.
  unfold BaseEmbedMulti._check_input_graphs, bind, raise, lift, ret, modify.
  destruct graphs as [gs | a | ].
  - destruct (length gs <=? 1).
    + intros H; inversion H; subst. apply same_fit_refl.
    + destruct (mapM (import_graph L) gs) as [out | e].
      * simpl. destruct out as [| g0 out]; intros H; inversion H; subst;
          repeat split.
      * intros H; inversion H; subst. apply same_fit_refl.
  - destruct (negb (ndim a =? 3)).
    + intros H; inversion H; subst. apply same_fit_refl.
    + destruct a; try (intros H; inversion H; subst; apply same_fit_refl).
      destruct (length T <=? 1).
      * intros H; inversion H; subst. apply same_fit_refl.
      * destruct (import_graph_3d L T) as [out | e].
        -- simpl. destruct out as [| g0 out]; intros H; inversion H; subst;
             repeat split.
        -- intros H; inversion H; subst. apply same_fit_refl.
  - intros H; inversion H; subst. apply same_fit_refl.
Qed.

(** C7: on a fitted model, a valid collection whose symmetry status differs
    from the model's [undirected] flag makes [transform] raise the
    [TypeError] that reports the mismatch; the object keeps what the input
    check assigned. *)
Theorem transform_directedness_mismatch graphs m out m1 b :
  BaseEmbedMulti._check_input_graphs L graphs m = (Ok out, m1) ->
  undirected m = Some b ->
  forallb (is_almost_symmetric L) (graphs_of out) <> b ->
  MultipleASE.transform L graphs m = (Raise TypeError, m1).
Proof.
  intros Hc Hu Hne.
  unfold MultipleASE.transform.
  rewrite (bind_run _ _ _ Hc).
  destruct (check_frame _ _ Hc) as (Hu1 & _).
  assert (Hg : getattr undirected m1 = (Ok b, m1)).
  { unfold getattr. rewrite Hu1, Hu. reflexivity. }
  rewrite (bind_run _ _ _ Hg).
  assert (Hb : Bool.eqb b (forallb (is_almost_symmetric L) (graphs_of out)) = false).
  { apply Bool.eqb_false_iff. congruence. }
  rewrite Hb. reflexivity.
Qed.
(** ** Lists of fallible results *)

Lemma mapM_length {A B} (f : A -> result B) l ys :
  mapM f l = Ok ys -> length ys = length l.
Proof.
  revert ys. induction l as [| x t IH]; simpl; intros ys H.
  - inversion H. reflexivity.
  - destruct (f x) as [y | e]; [| discriminate].
    destruct (mapM f t) as [ys' | e]; [| discriminate].
    inversion H; subst. simpl. f_equal. apply IH. reflexivity.
Qed.

Lemma mapM_Forall2 {A B} (f : A -> result B) l ys :
  mapM f l = Ok ys <-> Forall2 (fun x y => f x = Ok y) l ys.
Proof.
  revert ys. induction l as [| x t IH]; simpl; intros ys.
  - split; intros H.
    + inversion H. constructor.
    + inversion H. reflexivity.
  - split; intros H.
    + destruct (f x) as [y | e] eqn:Hx; [| discriminate].
      destruct (mapM f t) as [ys' | e] eqn:Ht; [| discriminate].
      inversion H; subst. constructor; [exact Hx | apply IH; reflexivity].
    + inversion H as [| ? y ? ys' Hx Ht]; subst.
      rewrite Hx. apply IH in Ht. rewrite Ht. reflexivity.
Qed.

Lemma mapM_nth {A B} (f : A -> result B) l ys i x :
  mapM f l = Ok ys -> nth_error l i = Some x ->
  exists y, f x = Ok y /\ nth_error ys i = Some y.
Proof.
  rewrite mapM_Forall2. intros H. revert i.
  induction H as [| a b l' ys' Hab _ IH]; intros i Hi.
  - destruct i; discriminate.
  - destruct i as [| i]; simpl in *.
    + inversion Hi; subst. exists b. split; [exact Hab | reflexivity].
    + apply IH. exact Hi.
Qed.

Lemma as_tensor_ok (T T' : list (Mat.matrix N)) :
  Mat.as_tensor T = Ok T' -> T' = T.
Proof.
  unfold Mat.as_tensor. destruct T as [| G rest].
  - intros H; inversion H; reflexivity.
  - destruct (forallb _ rest); intros H; inversion H; reflexivity.
Qed.

(** Each slice of [left.T @ graphs @ right] is the product for one graph. *)
Lemma project_slices left right (graphs S : list (Mat.matrix N)) :
  MultipleASE.project left graphs right = Ok S ->
  length S = length graphs /\
  forall i G, nth_error graphs i = Some G ->
    exists P R, Mat.matmul (Mat.transpose left) G = Ok P /\
                Mat.matmul P right = Ok R /\
                nth_error S i = Some R.
Proof.
  unfold MultipleASE.project, MultipleASE.project_left, rbind.
  destruct (Mat.as_tensor graphs) as [T |] eqn:HT; [| discriminate].
  apply as_tensor_ok in HT. subst T.
  unfold Mat.matmul_l, Mat.matmul_r.
  destruct (mapM _ graphs) as [Ps |] eqn:HP; [| discriminate].
  intros HS. split.
  - rewrite (mapM_length _ _ HS). apply (mapM_length _ _ HP).
  - intros i G HG.
    destruct (mapM_nth _ _ _ HP HG) as (P & HPG & HPi).
    destruct (mapM_nth _ _ _ HS HPi) as (R & HR & HRi).
    exists P, R. auto.
Qed.

(** ** [MultipleASE.fit] *)

Lemma reduce_dim_state graphs m r m' :
  MultipleASE._reduce_dim L graphs m = (r, m') -> m' = m.
Proof.
  unfold MultipleASE._reduce_dim, bind, get, getattr, lift, ret.
  destruct (n_vertices_ m) as [n |]; [| intros H; inversion H; reflexivity].
  destruct (ceil_log2 n) as [rank |]; [| intros H; inversion H; reflexivity].
  destruct (MultipleASE.embed_each L m rank graphs) as [embeddings |];
    [| intros H; inversion H; reflexivity].
  destruct (MultipleASE.unzip3 embeddings) as [[[Us Ds] Vs] |];
    [| intros H; inversion H; reflexivity].
  destruct (MultipleASE.choose_dimension L m Ds) as [d |];
    [| intros H; inversion H; reflexivity].
  destruct (MultipleASE.stack_left m d Us Ds) as [Us' |];
    [| intros H; inversion H; reflexivity].
  destruct (MultipleASE.stack_right m d Vs Ds) as [Vs' |];
    [| intros H; inversion H; reflexivity].
  destruct (MultipleASE.joint_basis L m Us') as [Uhat |];
    [| intros H; inversion H; reflexivity].
  destruct (MultipleASE.joint_basis L m Vs') as [Vhat |];
    intros H; inversion H; reflexivity.
Qed.

(** A successful [fit], step by step. *)
Lemma fit_ok_inv graphs m m' :
  MultipleASE.fit L graphs m = (Ok tt, m') ->
  exists out m1 Uhat Vhat S,
    BaseEmbedMulti._check_input_graphs L graphs m = (Ok out, m1) /\
    MultipleASE._reduce_dim L (graphs_of out) (checked_state L m1 out)
      = (Ok (Uhat, Vhat), checked_state L m1 out) /\
    let undirected := forallb (is_almost_symmetric L) (graphs_of out) in
    MultipleASE.project Uhat (graphs_of out) (if undirected then Uhat else Vhat)
      = Ok S /\
    m' = set_scores_ S
           (set_latent_right_ (if undirected then None else Some Vhat)
              (set_latent_left_ Uhat (checked_state L m1 out))).
Proof.
  unfold MultipleASE.fit. intros H.
  apply bind_ok_inv in H. destruct H as (out & m1 & Hc & H).
  apply bind_ok_inv in H. destruct H as ([] & m2 & Hm & H).
  unfold modify in Hm. inversion Hm; subst m2. clear Hm.
  apply bind_ok_inv in H. destruct H as ([Uhat Vhat] & m3 & Hr & H).
  pose proof (reduce_dim_state _ _ Hr) as ->.
  fold (checked_state L m1 out) in *.
  apply bind_ok_inv in H. destruct H as ([] & m4 & Hm & H).
  unfold modify in Hm. inversion Hm; subst m4. clear Hm.
  destruct (forallb (is_almost_symmetric L) (graphs_of out)) eqn:Hu; simpl in H.
  - apply bind_ok_inv in H. destruct H as ([] & m5 & Hm & H).
    unfold modify in Hm. inversion Hm; subst m5. clear Hm.
    apply bind_ok_inv in H. destruct H as (S & m6 & Hp & H).
    unfold lift in Hp. inversion Hp as [[Hp' Hs]]. subst m6.
    unfold modify in H. inversion H; subst.
    exists out, m1, Uhat, Vhat, S. simpl. rewrite Hu. auto.
  - apply bind_ok_inv in H. destruct H as ([] & m5 & Hm & H).
    unfold modify in Hm. inversion Hm; subst m5. clear Hm.
    apply bind_ok_inv in H. destruct H as (S & m6 & Hp & H).
    unfold lift in Hp. inversion Hp as [[Hp' Hs]]. subst m6.
    unfold modify in H. inversion H; subst.
    exists out, m1, Uhat, Vhat, S. simpl. rewrite Hu. auto.
Qed.

(** C2: after a successful [fit], with [out] the collection the input check
    returned and [(Uhat, Vhat)] the bases [_reduce_dim] computed from it:
    [undirected] is true exactly when every graph is near-symmetric;
    [latent_left_] is [Uhat]; [latent_right_] is [None] when undirected and
    [Vhat] when directed; and [scores_] holds, graph by graph and in order,
    [Uhat.T @ G @ Uhat] when undirected and [Uhat.T @ G @ Vhat] when
    directed. *)
Theorem fit_stores_basis_and_scores graphs m m' :
  MultipleASE.fit L graphs m = (Ok tt, m') ->
  exists out m1 Uhat Vhat S b,
    BaseEmbedMulti._check_input_graphs L graphs m = (Ok out, m1) /\
    MultipleASE._reduce_dim L (graphs_of out) (checked_state L m1 out)
      = (Ok (Uhat, Vhat), checked_state L m1 out) /\
    undirected m' = Some b /\
    (b = true <->
     Forall (fun G => is_almost_symmetric L G = true) (graphs_of out)) /\
    latent_left_ m' = Some Uhat /\
    latent_right_ m' = Some (if b then None else Some Vhat) /\
    scores_ m' = Some S /\
    length S = length (graphs_of out) /\
    forall i G, nth_error (graphs_of out) i = Some G ->
      exists P R,
        Mat.matmul (Mat.transpose Uhat) G = Ok P /\
        Mat.matmul P (if b then Uhat else Vhat) = Ok R /\
        nth_error S i = Some R.
Proof.
  intros H.
  destruct (fit_ok_inv _ _ H) as (out & m1 & Uhat & Vhat & S & Hc & Hr & Hp & ->).
  exists out, m1, Uhat, Vhat, S,
    (forallb (is_almost_symmetric L) (graphs_of out)).
  destruct (project_slices _ _ _ Hp) as (Hlen & Hsl).
  repeat (split; [first [exact Hc | exact Hr | reflexivity | exact Hlen] |]);
    try exact Hsl.
  split; [| repeat (split; [first [reflexivity | exact Hlen] |]); exact Hsl].
  rewrite forallb_forall, Forall_forall. reflexivity.
Qed.





(** ** [MultipleASE.transform] *)

(** Once the checks of [transform] pass and the projection onto the fitted
    basis has been computed, the projection is dropped and the method is
    [fit_transform] on the new graphs. *)
Lemma transform_is_fit_transform graphs m out m1 S0 :
  BaseEmbedMulti._check_input_graphs L graphs m = (Ok out, m1) ->
  undirected m = Some (forallb (is_almost_symmetric L) (graphs_of out)) ->
  fitted_projection m (graphs_of out) = Ok S0 ->
  MultipleASE.transform L graphs m
  = MultipleASE.fit_transform L (as_graphs (nxgraph L) out) m1.
Proof.
  intros Hc Hu Hp.
  destruct (check_frame _ _ Hc) as (Hu1 & Hl1 & Hr1 & _).
  unfold MultipleASE.transform.
  rewrite (bind_run _ _ _ Hc).
  assert (Hg : getattr undirected m1
               = (Ok (forallb (is_almost_symmetric L) (graphs_of out)), m1)).
  { unfold getattr. rewrite Hu1, Hu. reflexivity. }
  rewrite (bind_run _ _ _ Hg). rewrite Bool.eqb_reflx. cbn [negb].
  unfold fitted_projection in Hp. rewrite Hu in Hp.
  destruct (latent_left_ m) as [Ul |] eqn:Hl; [| discriminate].
  assert (Hgl : getattr latent_left_ m1 = (Ok Ul, m1)).
  { unfold getattr. rewrite Hl1. reflexivity. }
  unfold MultipleASE.fit_transform.
  match goal with |- bind ?c ?k m1 = _ => assert (Hret : c m1 = (Ok tt, m1)) end.
  { unfold ret. reflexivity. }
  rewrite (bind_run _ _ _ Hret).
  match goal with |- bind ?c ?k m1 = _ => assert (Htry : c m1 = (Ok tt, m1)) end.
  { unfold try_except_else. rewrite Hgl. cbv beta.
    destruct (forallb (is_almost_symmetric L) (graphs_of out)); cbn [negb].
    - rewrite (bind_run _ _ _ Hgl).
      unfold bind, lift, ret. rewrite Hp. reflexivity.
    - rewrite (bind_run _ _ _ Hgl).
      destruct (latent_right_ m) as [[Vr |] |] eqn:Hr; try discriminate.
      unfold MultipleASE.project, rbind in Hp.
      destruct (MultipleASE.project_left Ul (graphs_of out)) as [P |] eqn:HP;
        [| discriminate].
      unfold bind at 1. unfold lift at 1.
      unfold bind at 1. unfold MultipleASE.latent_right_operand.
      unfold bind at 1. unfold getattr at 1. rewrite Hr1.
      unfold ret at 1. unfold bind, lift, ret. rewrite Hp. reflexivity. }
  rewrite (bind_run _ _ _ Htry). reflexivity.
Qed.

(** [transform] on an object on which [fit] has not assigned
    [latent_left_].  With a collection that passes the input check, the
    exception is the [AttributeError] of the missing attribute (or the
    [TypeError] of a directedness mismatch, when an interrupted [fit] Ul
    [undirected] behind); the handler for [NameError] never runs. *)
Lemma transform_before_fit graphs m out m1 :
  BaseEmbedMulti._check_input_graphs L graphs m = (Ok out, m1) ->
  latent_left_ m = None ->
  MultipleASE.transform L graphs m
  = (Raise
       match undirected m with
       | None => AttributeError
       | Some b =>
           if Bool.eqb b (forallb (is_almost_symmetric L) (graphs_of out))
           then AttributeError else TypeError
       end, m1).
Proof.
  intros Hc Hl.
  destruct (check_frame _ _ Hc) as (Hu1 & Hl1 & _).
  unfold MultipleASE.transform.
  rewrite (bind_run _ _ _ Hc).
  destruct (undirected m) as [b |] eqn:Hu.
  - assert (Hg : getattr undirected m1 = (Ok b, m1)).
    { unfold getattr. rewrite Hu1. reflexivity. }
    rewrite (bind_run _ _ _ Hg).
    destruct (Bool.eqb b _); cbn [negb]; [| reflexivity].
    unfold bind at 1. unfold ret at 1.
    unfold bind, try_except_else, getattr. rewrite Hl1, Hl. reflexivity.
  - unfold bind, getattr. rewrite Hu1. reflexivity.
Qed.

(** ** The input check *)

Lemma check_rejects_short_list (gs : list (graph_like N (nxgraph L))) m :
  length gs <= 1 ->
  BaseEmbedMulti._check_input_graphs L (PyList gs) m = (Raise ValueError, m).
Proof.
  intros H. unfold BaseEmbedMulti._check_input_graphs, bind, raise.
  apply Nat.leb_le in H. rewrite H. reflexivity.
Qed.

Lemma check_rejects_short_array (T : list (Mat.matrix N)) m :
  length T <= 1 ->
  BaseEmbedMulti._check_input_graphs L (PyArray (Arr3 T)) m
  = (Raise ValueError, m).
Proof.
  intros H. unfold BaseEmbedMulti._check_input_graphs, bind, raise.
  apply Nat.leb_le in H. simpl. rewrite H. reflexivity.
Qed.

(** Fewer than two graphs: [fit] raises [ValueError] and assigns nothing. *)
Lemma fit_rejects_short_list (gs : list (graph_like N (nxgraph L))) m :
  length gs <= 1 ->
  MultipleASE.fit L (PyList gs) m = (Raise ValueError, m).
Proof.
  intros H. unfold MultipleASE.fit.
  apply bind_raise. apply check_rejects_short_list. exact H.
Qed.

Lemma fit_rejects_short_array (T : list (Mat.matrix N)) m :
  length T <= 1 ->
  MultipleASE.fit L (PyArray (Arr3 T)) m = (Raise ValueError, m).
Proof.
  intros H. unfold MultipleASE.fit.
  apply bind_raise. apply check_rejects_short_array. exact H.
Qed.

(** A list of two or more graphs passes the check as soon as each graph is
    imported: the shapes are not compared. *)
Lemma check_accepts_list (gs : list (graph_like N (nxgraph L))) out m :
  2 <= length gs ->
  mapM (import_graph L) gs = Ok out ->
  BaseEmbedMulti._check_input_graphs L (PyList gs) m
  = (Ok (OutList out),
     set_n_vertices_ (Mat.nrows (hd [] out)) (set_n_graphs_ (length out) m)).
Proof.
  intros Hlen Hout.
  unfold BaseEmbedMulti._check_input_graphs, bind, raise, lift, ret, modify.
  assert (Hb : (length gs <=? 1) = false) by (apply Nat.leb_gt; lia).
  rewrite Hb, Hout. simpl.
  pose proof (mapM_length _ _ Hout) as Hl.
  destruct out as [| g0 rest]; [simpl in Hl; lia | reflexivity].
Qed.

(** ** The dimension of the first stage *)

Lemma fold_max_ge (l : list Z) (x : Z) :
  (x <= fold_left Z.max l x)%Z /\
  Forall (fun k => (k <= fold_left Z.max l x)%Z) l.
Proof.
  revert x. induction l as [| y t IH]; intros x; simpl.
  - split; [lia | constructor].
  - destruct (IH (Z.max x y)) as (H1 & H2). split; [lia |].
    constructor; [lia | exact H2].
Qed.

Lemma fold_max_in (l : list Z) (x : Z) :
  fold_left Z.max l x = x \/ In (fold_left Z.max l x) l.
Proof.
  revert x. induction l as [| y t IH]; intros x; simpl.
  - left. reflexivity.
  - destruct (IH (Z.max x y)) as [H | H].
    + rewrite H. destruct (Z.max_spec x y) as [[_ E] | [_ E]]; rewrite E; auto.
    + right. right. exact H.
Qed.

Lemma np_max_spec (l : list Z) (b : Z) :
  np_max l = Ok b -> In b l /\ Forall (fun k => (k <= b)%Z) l.
Proof.
  destruct l as [| x t]; simpl; [discriminate |].
  intros H. inversion H; subst. clear H.
  destruct (fold_max_ge t x) as (H1 & H2).
  split.
  - destruct (fold_max_in t x) as [E | E]; [left; symmetry; exact E | right; exact E].
  - constructor; assumption.
Qed.

Lemma py_last_spec {A} (l : list A) (x : A) :
  py_last l = Ok x -> exists pre, l = pre ++ [x].
Proof.
  unfold py_last. destruct (rev l) as [| y r] eqn:E; [discriminate |].
  intros H. inversion H; subst. exists (rev r).
  rewrite <- (rev_involutive l), E. reflexivity.
Qed.

Lemma Forall2_map_l {A B C} (P : B -> C -> Prop) (f : A -> B) l l' :
  Forall2 P (map f l) l' <-> Forall2 (fun x y => P (f x) y) l l'.
Proof.
  revert l'. induction l as [| x t IH]; intros l'; simpl.
  - split; intros H; inversion H; constructor.
  - split; intros H; inversion H; subst; constructor; auto; apply IH; auto.
Qed.

Lemma unzip3_ok (embeddings : list (MultipleASE.svd_triple N)) Us Ds Vs :
  MultipleASE.unzip3 embeddings = Ok (Us, Ds, Vs) ->
  Us = map (fun e => fst (fst e)) embeddings /\
  Ds = map (fun e => snd (fst e)) embeddings /\
  Vs = map (fun e => snd e) embeddings.
Proof.
  destruct embeddings; simpl; [discriminate |].
  intros H; inversion H; auto.
Qed.

Lemma reduce_dim_ok_inv graphs m Uhat Vhat m' :
  MultipleASE._reduce_dim L graphs m = (Ok (Uhat, Vhat), m') ->
  exists n rank embeddings Us Ds Vs d Us' Vs',
    n_vertices_ m = Some n /\
    ceil_log2 n = Ok rank /\
    MultipleASE.embed_each L m rank graphs = Ok embeddings /\
    MultipleASE.unzip3 embeddings = Ok (Us, Ds, Vs) /\
    MultipleASE.choose_dimension L m Ds = Ok d /\
    MultipleASE.stack_left m d Us Ds = Ok Us' /\
    MultipleASE.stack_right m d Vs Ds = Ok Vs' /\
    MultipleASE.joint_basis L m Us' = Ok Uhat /\
    MultipleASE.joint_basis L m Vs' = Ok Vhat.
Proof.
  unfold MultipleASE._reduce_dim, bind, get, getattr, lift, ret.
  destruct (n_vertices_ m) as [n |]; [| discriminate].
  destruct (ceil_log2 n) as [rank |] eqn:Hk; [| discriminate].
  destruct (MultipleASE.embed_each L m rank graphs) as [embeddings |] eqn:He;
    [| discriminate].
  destruct (MultipleASE.unzip3 embeddings) as [[[Us Ds] Vs] |] eqn:Hz;
    [| discriminate].
  destruct (MultipleASE.choose_dimension L m Ds) as [d |] eqn:Hd;
    [| discriminate].
  destruct (MultipleASE.stack_left m d Us Ds) as [Us' |] eqn:Hsl;
    [| discriminate].
  destruct (MultipleASE.stack_right m d Vs Ds) as [Vs' |] eqn:Hsr;
    [| discriminate].
  destruct (MultipleASE.joint_basis L m Us') as [Uh |] eqn:Hu; [| discriminate].
  destruct (MultipleASE.joint_basis L m Vs') as [Vh |] eqn:Hv; [| discriminate].
  intros H. inversion H; subst.
  exists n, rank, embeddings, Us, Ds, Vs, d, Us', Vs'. repeat split; auto.
Qed.

(** C3: in a successful [_reduce_dim] on an object with [n] vertices, every
    graph is decomposed at the rank [ceil (log2 n)] with the algorithm and
    iteration count of the object; the dimension [best] that the stacking
    truncates to is [n_components] when it is given, and otherwise the
    largest, over the graphs, of the last elbow that [select_dimension]
    reports for the graph's singular values with [n_elbows] elbows. *)
Theorem reduce_dim_shared_dimension graphs m Uhat Vhat m' :
  MultipleASE._reduce_dim L graphs m = (Ok (Uhat, Vhat), m') ->
  exists n rank embeddings best Us' Vs',
    n_vertices_ m = Some n /\
    (Z.of_nat n <= 2 ^ rank)%Z /\
    ((1 < Z.of_nat n)%Z -> (2 ^ (rank - 1) < Z.of_nat n)%Z) /\
    Forall2 (fun G e =>
               selectSVD L G (Some rank) None (Some (algorithm m))
                 (Some (n_iter m)) = Ok e)
            graphs embeddings /\
    match n_components m with
    | Some d => best = d
    | None =>
        exists dims,
          Forall2 (fun e k =>
                     exists pre likelihoods,
                       select_dimension L (snd (fst e)) (n_elbows m)
                       = Ok (pre ++ [k], likelihoods))
                  embeddings dims /\
          In best dims /\
          Forall (fun k => (k <= best)%Z) dims
    end /\
    MultipleASE.stack_left m best (map (fun e => fst (fst e)) embeddings)
      (map (fun e => snd (fst e)) embeddings) = Ok Us' /\
    MultipleASE.stack_right m best (map (fun e => snd e) embeddings)
      (map (fun e => snd (fst e)) embeddings) = Ok Vs' /\
    MultipleASE.joint_basis L m Us' = Ok Uhat /\
    MultipleASE.joint_basis L m Vs' = Ok Vhat.
Proof.
  intros H.
  destruct (reduce_dim_ok_inv _ _ H)
    as (n & rank & embeddings & Us & Ds & Vs & d & Us' & Vs'
        & Hn & Hk & He & Hz & Hd & Hsl & Hsr & Hu & Hv).
  destruct (unzip3_ok _ Hz) as (-> & -> & ->).
  exists n, rank, embeddings, d, Us', Vs'.
  assert (Hrank : rank = Z.log2_up (Z.of_nat n) /\ n <> 0).
  { destruct n; simpl in Hk; [discriminate |]. inversion Hk. split; [reflexivity | lia]. }
  destruct Hrank as (Hrank & Hn0).
  split; [exact Hn |].
  split.
  { subst rank. destruct (Z.eq_dec (Z.of_nat n) 1) as [E | E].
    - rewrite E. simpl. lia.
    - apply Z.log2_up_spec. lia. }
  split.
  { intros H1. subst rank.
    pose proof (Z.log2_up_spec (Z.of_nat n) ltac:(lia)) as Hs.
    replace (Z.log2_up (Z.of_nat n) - 1)%Z with (Z.pred (Z.log2_up (Z.of_nat n))) by lia.
    lia. }
  split.
  { unfold MultipleASE.embed_each in He. apply mapM_Forall2 in He. exact He. }
  split.
  { unfold MultipleASE.choose_dimension in Hd.
    destruct (n_components m) as [d0 |].
    - inversion Hd. reflexivity.
    - unfold rbind in Hd.
      match type of Hd with
      | match mapM ?f ?l with _ => _ end = _ =>
          destruct (mapM f l) as [dims |] eqn:Hdims; [| discriminate]
      end.
      exists dims. apply np_max_spec in Hd. destruct Hd as (Hin & Hall).
      split; [| split; assumption].
      apply mapM_Forall2 in Hdims. apply Forall2_map_l in Hdims.
      eapply Forall2_impl; [| exact Hdims].
      intros e k Hek. cbv beta in Hek.
      destruct (select_dimension L (snd (fst e)) (n_elbows m))
        as [[elbows lik] |]; [| discriminate].
      apply py_last_spec in Hek. destruct Hek as (pre & ->).
      exists pre, lik. reflexivity. }
  auto.
Qed.

(** ** Stacking *)

Lemma py_upto_length {A} (d : Z) (l : list A) :
  length (py_upto d l) = kept d (length l).
Proof.
  unfold py_upto, kept. destruct (0 <=? d)%Z; rewrite length_firstn; lia.
Qed.

Lemma kept_within (d : Z) (r : nat) :
  (0 <= d <= Z.of_nat r)%Z -> kept d r = Z.to_nat d.
Proof.
  intros H. unfold kept.
  destruct (0 <=? d)%Z eqn:E; [lia |]. apply Z.leb_gt in E. lia.
Qed.

Lemma kept_beyond (d : Z) (r : nat) :
  (Z.of_nat r <= d)%Z -> kept d r = r.
Proof.
  intros H. unfold kept.
  destruct (0 <=? d)%Z eqn:E; [lia |]. apply Z.leb_gt in E. lia.
Qed.

Lemma rows_by_index {A} (d : A) (l : list A) :
  map (fun i => nth i l d) (seq 0 (length l)) = l.
Proof.
  apply nth_ext with (d := d) (d' := d).
  - rewrite length_map, length_seq. reflexivity.
  - intros i Hi. rewrite length_map, length_seq in Hi.
    rewrite (nth_indep _ d (nth 0 l d)) by (rewrite length_map, length_seq; exact Hi).
    rewrite (map_nth (fun i => nth i l d)) with (d := 0).
    rewrite seq_nth by exact Hi. reflexivity.
Qed.

Lemma combine_map_same {A B C} (f : A -> B) (g : A -> C) (l : list A) :
  combine (map f l) (map g l) = map (fun x => (f x, g x)) l.
Proof. induction l; simpl; [reflexivity | f_equal; assumption]. Qed.

Lemma hstack_hconcat (n : nat) (Ms : list (Mat.matrix N)) :
  Ms <> [] ->
  Forall (fun B => Mat.nrows B = n) Ms ->
  Mat.hstack Ms = Ok (Mat.hconcat n Ms).
Proof.
  induction Ms as [| B rest IH]; intros Hne Hall; [congruence |].
  inversion Hall as [| ? ? HB Hrest]; subst.
  destruct rest as [| B' rest'].
  - simpl. f_equal. unfold Mat.hconcat. simpl.
    rewrite <- (rows_by_index [] B) at 1. unfold Mat.nrows.
    apply map_ext. intros i. rewrite app_nil_r. reflexivity.
  - change (Mat.hstack (B :: B' :: rest'))
      with (match Mat.hstack (B' :: rest') with
            | Raise e => Raise e
            | Ok R =>
                if Nat.eqb (Mat.nrows B) (Mat.nrows R)
                then Ok (map (fun p => fst p ++ snd p) (combine B R))
                else Raise ValueError
            end).
    rewrite IH by (congruence || assumption).
    assert (HR : Mat.nrows (Mat.hconcat (Mat.nrows B) (B' :: rest')) = Mat.nrows B).
    { unfold Mat.hconcat, Mat.nrows. rewrite length_map, length_seq. reflexivity. }
    rewrite HR, Nat.eqb_refl. f_equal.
    unfold Mat.hconcat.
    rewrite <- (rows_by_index [] B) at 1. unfold Mat.nrows.
    rewrite combine_map_same, map_map. apply map_ext. intros i. reflexivity.
Qed.

Lemma concat_uniform_length {A} (c : nat) (l : list (list A)) :
  Forall (fun x => length x = c) l -> length (concat l) = length l * c.
Proof.
  induction 1 as [| x t Hx _ IH]; simpl; [reflexivity |].
  rewrite length_app, IH, Hx. reflexivity.
Qed.

Lemma has_shape_row n c (B : Mat.matrix N) i :
  has_shape n c B -> i < n -> length (nth i B []) = c.
Proof.
  intros (Hn & Hall) Hi. rewrite Forall_forall in Hall.
  apply Hall. apply nth_In. unfold Mat.nrows in Hn. lia.
Qed.

Lemma has_shape_ncols n c (B : Mat.matrix N) :
  has_shape n c B -> 1 <= n -> Mat.ncols B = c.
Proof.
  intros H Hn. unfold Mat.ncols.
  rewrite <- (has_shape_row (i := 0) H) by lia.
  destruct B; reflexivity.
Qed.

Lemma hconcat_shape n c (Ms : list (Mat.matrix N)) :
  Forall (has_shape n c) Ms ->
  has_shape n (length Ms * c) (Mat.hconcat n Ms).
Proof.
  intros Hall. split.
  - unfold Mat.hconcat, Mat.nrows. rewrite length_map, length_seq. reflexivity.
  - unfold Mat.hconcat. rewrite Forall_forall. intros row Hrow.
    apply in_map_iff in Hrow. destruct Hrow as (i & <- & Hi).
    apply in_seq in Hi.
    rewrite concat_uniform_length with (c := c).
    + rewrite length_map. reflexivity.
    + rewrite Forall_forall. intros x Hx.
      apply in_map_iff in Hx. destruct Hx as (B & <- & HB).
      rewrite Forall_forall in Hall.
      apply has_shape_row with (n := n); [apply Hall; exact HB | lia].
Qed.

Lemma cols_upto_shape n r d (U : Mat.matrix N) :
  has_shape n r U -> has_shape n (kept d r) (Mat.cols_upto d U).
Proof.
  intros (Hn & Hall). split.
  - unfold Mat.cols_upto, Mat.nrows. rewrite length_map. exact Hn.
  - unfold Mat.cols_upto. rewrite Forall_forall in *. intros row Hrow.
    apply in_map_iff in Hrow. destruct Hrow as (row0 & <- & H0).
    rewrite py_upto_length, (Hall _ H0). reflexivity.
Qed.

Lemma diag_shape (v : Mat.vector N) :
  has_shape (length v) (length v) (Mat.diag v).
Proof.
  split.
  - unfold Mat.diag, Mat.nrows. rewrite length_map, length_seq. reflexivity.
  - unfold Mat.diag. rewrite Forall_forall. intros row Hrow.
    apply in_map_iff in Hrow. destruct Hrow as (i & <- & _).
    rewrite length_map, length_seq. reflexivity.
Qed.

Lemma diag_ncols (v : Mat.vector N) : Mat.ncols (Mat.diag v) = length v.
Proof.
  destruct v as [| x t]; [reflexivity |].
  apply has_shape_ncols with (n := length (x :: t)); [apply diag_shape | simpl; lia].
Qed.

Lemma matmul_shape n k c (A B : Mat.matrix N) :
  has_shape n k A -> 1 <= n -> Mat.nrows B = k -> Mat.ncols B = c ->
  exists P, Mat.matmul A B = Ok P /\ has_shape n c P.
Proof.
  intros HA Hn HB Hc. unfold Mat.matmul.
  rewrite (has_shape_ncols HA Hn), HB, Nat.eqb_refl.
  eexists. split; [reflexivity |]. split.
  - unfold Mat.nrows. rewrite length_map. apply HA.
  - rewrite Forall_forall. intros row Hrow.
    apply in_map_iff in Hrow. destruct Hrow as (row0 & <- & _).
    rewrite length_map, length_seq. exact Hc.
Qed.

Lemma stack_right_as_left m d (Vs : list (Mat.matrix N)) Ds :
  MultipleASE.stack_right m d Vs Ds
  = MultipleASE.stack_left m d (map (fun V => Mat.transpose V) Vs) Ds.
Proof.
  unfold MultipleASE.stack_right, MultipleASE.stack_left.
  destruct (negb (scaled m)).
  - rewrite map_map. reflexivity.
  - f_equal. clear. revert Ds.
    induction Vs as [| V Vs IH]; intros Ds; [reflexivity |].
    destruct Ds as [| D Ds]; [reflexivity |].
    simpl. rewrite IH. reflexivity.
Qed.

Lemma scaled_blocks n r d (Us : list (Mat.matrix N)) (Ds : list (Mat.vector N)) :
  1 <= n ->
  Forall (has_shape n r) Us ->
  Forall2 (fun U D => length D = r) Us Ds ->
  exists blocks,
    mapM (fun UD =>
            Mat.matmul (Mat.cols_upto d (fst UD))
              (Mat.diag (Mat.vsqrt (py_upto d (snd UD)))))
         (combine Us Ds) = Ok blocks /\
    length blocks = length Us /\
    Forall (has_shape n (kept d r)) blocks.
Proof.
  intros Hn HUs HDs. induction HDs as [| U D Us' Ds' HD _ IH].
  - exists []. simpl. repeat split; constructor.
  - inversion HUs as [| ? ? HU HUs']; subst.
    destruct (IH HUs') as (blocks & Hm & Hl & Hs).
    assert (Hv : length (Mat.vsqrt (py_upto d D)) = kept d (length D)).
    { unfold Mat.vsqrt. rewrite length_map. apply py_upto_length. }
    destruct (@matmul_shape n (kept d (length D)) (kept d (length D))
                (Mat.cols_upto d U) (Mat.diag (Mat.vsqrt (py_upto d D))))
      as (P & HP & HPs).
    + apply cols_upto_shape. exact HU.
    + exact Hn.
    + rewrite <- Hv. apply (diag_shape (Mat.vsqrt (py_upto d D))).
    + rewrite diag_ncols. exact Hv.
    + exists (P :: blocks). simpl. rewrite HP, Hm.
      repeat split; [simpl; congruence | constructor; assumption].
Qed.

(** C4, as the code has it: for [K >= 1] first-stage factors [Us] of [n]
    rows and [r] columns each, with [r] singular values each, the matrix
    handed to the second-stage decomposition of the left side is the blocks
    side by side in the order of the graphs, where the block of a graph is
    [U[:, :best]] when [scaled] is false and
    [U[:, :best] @ diag(sqrt(D[:best]))] when it is true.  Its shape is
    [n] by [K * kept best r], the slice keeping [min best r] columns of a
    factor for [0 <= best]: it is [n] by [K * best] when [0 <= best <= r],
    and [n] by [K * r] when [best] exceeds the rank of the first stage.  The
    right side is the same construction on the transposed [V] factors. *)
Theorem stacked_blocks m best (Us : list (Mat.matrix N)) Ds n r :
  Us <> [] ->
  1 <= n ->
  Forall (has_shape n r) Us ->
  Forall2 (fun U D => length D = r) Us Ds ->
  (exists blocks,
     (if scaled m
      then Forall2 (fun UD B =>
                      Mat.matmul (Mat.cols_upto best (fst UD))
                        (Mat.diag (Mat.vsqrt (py_upto best (snd UD)))) = Ok B)
                   (combine Us Ds) blocks
      else blocks = map (fun U => Mat.cols_upto best U) Us) /\
     MultipleASE.stack_left m best Us Ds = Ok (Mat.hconcat n blocks) /\
     has_shape n (length Us * kept best r) (Mat.hconcat n blocks)) /\
  ((0 <= best <= Z.of_nat r)%Z -> kept best r = Z.to_nat best) /\
  ((Z.of_nat r <= best)%Z -> kept best r = r) /\
  (forall Vs,
     MultipleASE.stack_right m best Vs Ds
     = MultipleASE.stack_left m best (map (fun V => Mat.transpose V) Vs) Ds).
Proof.
  intros Hne Hn HUs HDs.
  split; [| split; [apply kept_within | split; [apply kept_beyond |]];
            intros; apply stack_right_as_left].
  unfold MultipleASE.stack_left.
  destruct (scaled m); cbn [negb].
  - destruct (scaled_blocks best Hn HUs HDs) as (blocks & Hm & Hl & Hs).
    exists blocks. split; [apply mapM_Forall2; exact Hm |].
    unfold rbind. rewrite Hm. split.
    + apply hstack_hconcat.
      * destruct blocks; [destruct Us; [congruence | discriminate] | discriminate].
      * eapply Forall_impl; [| exact Hs]. intros B HB. apply HB.
    + rewrite <- Hl. apply hconcat_shape. exact Hs.
  - exists (map (fun U => Mat.cols_upto best U) Us).
    split; [reflexivity |].
    assert (Hs : Forall (has_shape n (kept best r))
                   (map (fun U => Mat.cols_upto best U) Us)).
    { rewrite Forall_forall in *. intros B HB.
      apply in_map_iff in HB. destruct HB as (U & <- & HU).
      apply cols_upto_shape. apply HUs. exact HU. }
    split.
    + apply hstack_hconcat.
      * destruct Us; [congruence | discriminate].
      * eapply Forall_impl; [| exact Hs]. intros B HB. apply HB.
    + rewrite <- (length_map (fun U => Mat.cols_upto best U) Us).
      apply hconcat_shape. exact Hs.
Qed.

(** ** The single-graph embedder *)

Lemma transpose_shape r n (V : Mat.matrix N) :
  has_shape r n V -> 1 <= r -> has_shape n r (Mat.transpose V).
Proof.
  intros HV Hr. unfold Mat.transpose.
  rewrite (has_shape_ncols HV Hr). split.
  - unfold Mat.nrows. rewrite length_map, length_seq. reflexivity.
  - rewrite Forall_forall. intros row Hrow.
    apply in_map_iff in Hrow. destruct Hrow as (j & <- & _).
    unfold Mat.col. rewrite length_map. apply HV.
Qed.

(** C8: [BaseEmbed._reduce_dim] on an adjacency matrix [A] whose
    decomposition is [(U, D, V)], with [U] of [n] rows and [r] columns, [D]
    of [r] values and the [r] right singular vectors of length [n] as the
    rows of [V]: [latent_left_] becomes [U @ diag(sqrt(D))]; when [A] is
    near-symmetric [latent_right_] becomes [None]; otherwise it becomes
    [V.T @ diag(sqrt(D))], which has as many rows as [latent_left_]. *)
Theorem single_graph_latent_positions A m U D V n :
  selectSVD L A (n_components m) (Some (n_elbows m)) (Some (algorithm m))
    (Some (n_iter m)) = Ok (U, D, V) ->
  1 <= n ->
  1 <= length D ->
  has_shape n (length D) U ->
  has_shape (length D) n V ->
  exists X Y,
    Mat.matmul U (Mat.diag (Mat.vsqrt D)) = Ok X /\
    Mat.matmul (Mat.transpose V) (Mat.diag (Mat.vsqrt D)) = Ok Y /\
    Mat.nrows X = n /\
    Mat.nrows Y = n /\
    BaseEmbed._reduce_dim L A m
    = (Ok tt,
       set_latent_right_ (if is_almost_symmetric L A then None else Some Y)
         (set_latent_left_ X
            (set_singular_values_ D (set_n_components_ (length D) m)))).
Proof.
  intros Hsvd Hn Hr HU HV.
  assert (Hd : length (Mat.vsqrt D) = length D)
    by (unfold Mat.vsqrt; apply length_map).
  destruct (@matmul_shape n (length D) (length D) U (Mat.diag (Mat.vsqrt D)))
    as (X & HX & HXs); auto.
  { destruct (diag_shape (Mat.vsqrt D)) as [E _]. rewrite E. exact Hd. }
  { rewrite diag_ncols. exact Hd. }
  destruct (@matmul_shape n (length D) (length D) (Mat.transpose V)
              (Mat.diag (Mat.vsqrt D))) as (Y & HY & HYs); auto.
  { apply transpose_shape; assumption. }
  { destruct (diag_shape (Mat.vsqrt D)) as [E _]. rewrite E. exact Hd. }
  { rewrite diag_ncols. exact Hd. }
  exists X, Y.
  repeat (split; [first [assumption | apply HXs | apply HYs] |]).
  unfold BaseEmbed._reduce_dim, bind, get, lift, modify.
  rewrite Hsvd. cbn [n_components_ singular_values_ set_n_components_].
  rewrite HX.
  destruct (is_almost_symmetric L A); cbn [negb].
  - reflexivity.
  - rewrite HY. reflexivity.
Qed.

(** ** Classical multidimensional scaling *)

Lemma identity_shape n : has_shape n n (Mat.identity N n).
Proof.
  split.
  - unfold Mat.identity, Mat.nrows. rewrite length_map, length_seq. reflexivity.
  - unfold Mat.identity. rewrite Forall_forall. intros row Hrow.
    apply in_map_iff in Hrow. destruct Hrow as (i & <- & _).
    rewrite length_map, length_seq. reflexivity.
Qed.

Lemma ones_shape r c : has_shape r c (Mat.ones N r c).
Proof.
  split.
  - unfold Mat.ones, Mat.nrows. apply repeat_length.
  - unfold Mat.ones. rewrite Forall_forall. intros row Hrow.
    apply repeat_spec in Hrow. subst. apply repeat_length.
Qed.

Lemma mmap_shape n c f (B : Mat.matrix N) :
  has_shape n c B -> has_shape n c (Mat.mmap f B).
Proof.
  intros (Hn & Hall). split.
  - unfold Mat.mmap, Mat.nrows. rewrite length_map. exact Hn.
  - unfold Mat.mmap. rewrite Forall_forall in *. intros row Hrow.
    apply in_map_iff in Hrow. destruct Hrow as (row0 & <- & H0).
    rewrite length_map. apply Hall. exact H0.
Qed.

Lemma map2_shape n c f (A B : Mat.matrix N) :
  has_shape n c A -> has_shape n c B -> has_shape n c (Mat.map2 f A B).
Proof.
  intros (HAn & HA) (HBn & HB). unfold Mat.nrows in *. split.
  - unfold Mat.map2, Mat.nrows. rewrite length_map, length_combine. lia.
  - unfold Mat.map2. rewrite Forall_forall in *. intros row Hrow.
    apply in_map_iff in Hrow. destruct Hrow as ([a b] & <- & Hab).
    simpl. rewrite length_map, length_combine.
    rewrite (HA a), (HB b); [lia | |].
    + eapply in_combine_r. exact Hab.
    + eapply in_combine_l. exact Hab.
Qed.

Lemma centering_matrix_shape n c :
  has_shape n n
    (Mat.msub (Mat.identity N n) (Mat.scale_l c (Mat.ones N n n))).
Proof.
  unfold Mat.msub, Mat.scale_l. apply map2_shape.
  - apply identity_shape.
  - apply mmap_shape. apply ones_shape.
Qed.

(** C9: for an array [X] that passes the check of [n_components]:
    when the dissimilarity matrix obtained from [X] is [D], of [n] rows and
    [n] columns, [fit] computes [J = identity(n) - (1/n) * ones((n, n))] and
    [B = ((J @ D**2) @ J) * (-0.5)], hands [B] to [selectSVD], and, for the
    decomposition [(U, S, V)], [fit_transform] returns
    [U @ diag(sqrt(S))]; and with [dissimilarity = 'precomputed'] a matrix
    that is not symmetric makes [fit_transform] raise [ValueError], the
    object left as it was. *)
Theorem classical_mds_embedding (m : ClassicalMDS.t N) (X : ndarray N) :
  ClassicalMDS.check_n_components X m = (Ok tt, m) ->
  (forall D n,
     ClassicalMDS.handle_dissimilarity L X m = (Ok D, m) ->
     1 <= n ->
     has_shape n n D ->
     exists J JD JDJ,
       ClassicalMDS._get_centering_matrix N n = Ok J /\
       J = Mat.msub (Mat.identity N n)
             (Mat.scale_l (fdiv N (f1 N) (f_of_nat N n)) (Mat.ones N n n)) /\
       Mat.matmul J (Mat.square D) = Ok JD /\
       Mat.matmul JD J = Ok JDJ /\
       forall U S V,
         selectSVD L (Mat.scale_r JDJ (f_neg_half N))
           (ClassicalMDS.n_components m) None (Some (mds_algorithm m)) None
         = Ok (U, S, V) ->
         ClassicalMDS.fit_transform L (PyNd X) m
         = (Mat.matmul U (Mat.diag (Mat.vsqrt S)), mds_fitted m U S D)) /\
  (forall D,
     ClassicalMDS.dissimilarity m = "precomputed"%string ->
     check_array_2d L X = Ok D ->
     is_symmetric L D = false ->
     ClassicalMDS.fit_transform L (PyNd X) m = (Raise ValueError, m)).
Proof.
  intros Hcheck. split.
  - intros D n HD Hn HDs.
    assert (HJ : exists J, ClassicalMDS._get_centering_matrix N n = Ok J /\
                   J = Mat.msub (Mat.identity N n)
                         (Mat.scale_l (fdiv N (f1 N) (f_of_nat N n))
                            (Mat.ones N n n))).
    { unfold ClassicalMDS._get_centering_matrix.
      destruct n; [lia |]. eexists. split; reflexivity. }
    destruct HJ as (J & HJ & HJeq).
    assert (HJs : has_shape n n J) by (rewrite HJeq; apply centering_matrix_shape).
    destruct (@matmul_shape n n n J (Mat.square D)) as (JD & HJD & HJDs); auto.
    { apply (mmap_shape (fun x => fmul N x x) HDs). }
    { apply has_shape_ncols with (n := n); [| exact Hn].
      apply (mmap_shape (fun x => fmul N x x) HDs). }
    destruct (@matmul_shape n n n JD J) as (JDJ & HJDJ & _); auto.
    { apply HJs. }
    { apply has_shape_ncols with (n := n); assumption. }
    exists J, JD, JDJ. repeat (split; [assumption |]).
    intros U S V Hsvd.
    unfold ClassicalMDS.fit_transform, ClassicalMDS.fit.
    unfold bind at 1. unfold bind at 1. rewrite Hcheck.
    unfold bind at 1. rewrite HD.
    assert (Hrows : Mat.nrows D = n) by apply HDs. rewrite Hrows.
    unfold bind at 1. unfold lift at 1. rewrite HJ.
    unfold bind at 1. unfold lift at 1.
    unfold ClassicalMDS.double_center, rbind. rewrite HJD, HJDJ.
    unfold bind at 1. unfold get at 1.
    fold (mds_algorithm m).
    unfold bind at 1. unfold lift at 1. rewrite Hsvd.
    unfold bind, modify, getattr, lift. reflexivity.
  - intros D Hpre H2d Hsym.
    unfold ClassicalMDS.fit_transform, ClassicalMDS.fit.
    unfold bind at 1. unfold bind at 1. rewrite Hcheck.
    unfold bind at 1. unfold ClassicalMDS.handle_dissimilarity.
    unfold bind at 1. unfold get at 1. rewrite Hpre.
    rewrite String.eqb_refl.
    unfold bind, lift, raise. rewrite H2d, Hsym. reflexivity.
Qed.

End Properties.

(** * Further properties of the three modules *)

Section MoreProperties.
Variable N : Numeric.
Variable L : Library N.

Import BaseEmbed.

(** ** Input that the check turns away *)

Lemma check_rejected graphs e m :
  rejected_input L graphs = Some e ->
  BaseEmbedMulti._check_input_graphs L graphs m = (Raise e, m).
Proof.
  unfold rejected_input, BaseEmbedMulti._check_input_graphs, bind, raise.
  destruct graphs as [gs | a |].
  - destruct (length gs <=? 1); [| discriminate].
    intros H; inversion H; reflexivity.
  - destruct a; simpl; try (intros H; inversion H; reflexivity).
    destruct (length T <=? 1); [| discriminate].
    intros H; inversion H; reflexivity.
  - intros H; inversion H; reflexivity.
Qed.

(** X1: a collection that is no list, tuple or array ([TypeError]), an array
    that is not three-dimensional, or a list or array of fewer than two
    graphs ([ValueError]) makes [fit], [fit_transform] and [transform] raise
    that exception before anything is imported, and the object, fitted or
    not, is left exactly as it was. *)
Theorem rejected_input_leaves_object graphs e m :
  rejected_input L graphs = Some e ->
  MultipleASE.fit L graphs m = (Raise e, m) /\
  MultipleASE.fit_transform L graphs m = (Raise e, m) /\
  MultipleASE.transform L graphs m = (Raise e, m).
Proof.
  intros H. pose proof (@check_rejected graphs e m H) as Hc.
  assert (Hf : MultipleASE.fit L graphs m = (Raise e, m)).
  { unfold MultipleASE.fit. apply bind_raise. exact Hc. }
  split; [exact Hf |]. split.
  - unfold MultipleASE.fit_transform, BaseEmbed._fit_transform.
    apply bind_raise. exact Hf.
  - unfold MultipleASE.transform. apply bind_raise. exact Hc.
Qed.

(** ** What [fit] assigns *)

Lemma bind_raise_inv {S A B} (c : M S A) (k : A -> M S B) s e s' :
  bind c k s = (Raise e, s') ->
  c s = (Raise e, s') \/
  exists a s1, c s = (Ok a, s1) /\ k a s1 = (Raise e, s').
Proof.
  unfold bind. destruct (c s) as [[a | e0] s1]; intros H.
  - right. exists a, s1. auto.
  - left. inversion H; subst. reflexivity.
Qed.

Lemma check_parameters graphs m r m1 :
  BaseEmbedMulti._check_input_graphs L graphs m = (r, m1) ->
  same_parameters m m1 /\ check_lcc m1 = check_lcc m.
Proof.
  unfold BaseEmbedMulti._check_input_graphs, bind, raise, lift, ret, modify.
  destruct graphs as [gs | a | ].
  - destruct (length gs <=? 1).
    + intros H; inversion H; subst. repeat split.
    + destruct (mapM (import_graph L) gs) as [out | e].
      * simpl. destruct out as [| g0 out]; intros H; inversion H; subst;
          repeat split.
      * intros H; inversion H; subst. repeat split.
  - destruct (negb (ndim a =? 3)).
    + intros H; inversion H; subst. repeat split.
    + destruct a; try solve [intros H; inversion H; subst; repeat split].
      destruct (length T <=? 1).
      * intros H; inversion H; subst. repeat split.
      * destruct (import_graph_3d L T) as [out | e].
        -- simpl. destruct out as [| g0 out]; intros H; inversion H; subst;
             repeat split.
        -- intros H; inversion H; subst. repeat split.
  - intros H; inversion H; subst. repeat split.
Qed.

(** The steps of [fit] after the input check. *)
Lemma fit_after_check graphs m out m1 :
  BaseEmbedMulti._check_input_graphs L graphs m = (Ok out, m1) ->
  forall r m',
    MultipleASE.fit L graphs m = (r, m') ->
    same_parameters m1 m' /\
    (forall e, r = Raise e -> scores_ m' = scores_ m1).
Proof.
  intros Hc r m'. unfold MultipleASE.fit. rewrite (bind_run _ _ _ Hc).
  unfold bind at 1. unfold modify at 1.
  unfold bind at 1.
  destruct (MultipleASE._reduce_dim L (graphs_of out) (checked_state L m1 out))
    as [[[Uhat Vhat] | e0] m2] eqn:Hr;
    fold (checked_state L m1 out);
    rewrite Hr; pose proof (reduce_dim_state _ _ _ Hr) as ->.
  - unfold bind at 1. unfold modify at 1.
    destruct (forallb (is_almost_symmetric L) (graphs_of out)); cbn [negb];
      unfold bind, modify, lift;
      match goal with
      | |- context [MultipleASE.project ?a ?b ?c] =>
          destruct (MultipleASE.project a b c)
      end;
      intros H; inversion H; subst; split;
        try (repeat split); intros; try discriminate; reflexivity.
  - intros H; inversion H; subst. split; [repeat split | reflexivity].
Qed.

Lemma same_parameters_refl (m : BaseEmbed.t N) : same_parameters m m.
Proof. repeat split. Qed.

Lemma same_parameters_trans (a b c : BaseEmbed.t N) :
  same_parameters a b -> same_parameters b c -> same_parameters a c.
Proof.
  unfold same_parameters.
  intros (H1 & H2 & H3 & H4 & H5 & H6 & H7 & H8)
         (K1 & K2 & K3 & K4 & K5 & K6 & K7 & K8).
  repeat split; congruence.
Qed.

Lemma fit_parameters graphs m r m' :
  MultipleASE.fit L graphs m = (r, m') -> same_parameters m m'.
Proof.
  intros H.
  destruct (BaseEmbedMulti._check_input_graphs L graphs m) as [[out | e] m1] eqn:Hc.
  - destruct (check_parameters _ _ Hc) as (Hp & _).
    destruct (fit_after_check _ _ Hc H) as (Hq & _).
    eapply same_parameters_trans; eassumption.
  - unfold MultipleASE.fit in H. rewrite (bind_raise _ _ _ Hc) in H.
    inversion H; subst. apply (check_parameters _ _ Hc).
Qed.

Lemma reads_only_ret {S A} (a : A) : reads_only (@ret S A a).
Proof. intros s. eexists. reflexivity. Qed.

Lemma reads_only_raise {S A} (e : exn) : reads_only (@raise S A e).
Proof. intros s. eexists. reflexivity. Qed.

Lemma reads_only_lift {S A} (r : result A) : reads_only (@lift S A r).
Proof. intros s. eexists. reflexivity. Qed.

Lemma reads_only_getattr {S A} (attr : S -> option A) :
  reads_only (getattr attr).
Proof. intros s. unfold getattr. destruct (attr s); eexists; reflexivity. Qed.

Lemma reads_only_bind {S A B} (c : M S A) (k : A -> M S B) :
  reads_only c -> (forall a, reads_only (k a)) -> reads_only (bind c k).
Proof.
  intros Hc Hk s. unfold bind. destruct (Hc s) as (r & ->).
  destruct r as [a | e]; [apply Hk | eexists; reflexivity].
Qed.

Lemma reads_only_try {S A B} (c : M S A) e (h : M S B) (k : A -> M S B) :
  reads_only c -> reads_only h -> (forall a, reads_only (k a)) ->
  reads_only (try_except_else c e h k).
Proof.
  intros Hc Hh Hk s. unfold try_except_else. destruct (Hc s) as (r & ->).
  destruct r as [a | e']; [apply Hk |].
  destruct (exn_eqb e' e); [apply Hh | eexists; reflexivity].
Qed.

Lemma reads_only_latent_right_operand :
  reads_only (MultipleASE.latent_right_operand (N := N)).
Proof.
  unfold MultipleASE.latent_right_operand.
  apply reads_only_bind; [apply reads_only_getattr |].
  intros [V |]; [apply reads_only_ret | apply reads_only_raise].
Qed.

(** [transform] either stops with what the input check left, or is
    [fit_transform] on the checked collection. *)
Lemma transform_cases graphs m r m' :
  MultipleASE.transform L graphs m = (r, m') ->
  (exists r0 e, BaseEmbedMulti._check_input_graphs L graphs m = (r0, m') /\
                r = Raise e) \/
  (exists out m1,
     BaseEmbedMulti._check_input_graphs L graphs m = (Ok out, m1) /\
     MultipleASE.fit_transform L (as_graphs (nxgraph L) out) m1 = (r, m')).
Proof.
  unfold MultipleASE.transform. intros H.
  destruct (BaseEmbedMulti._check_input_graphs L graphs m) as [[out | e] m1] eqn:Hc.
  - rewrite (bind_run _ _ _ Hc) in H.
    unfold bind at 1 in H. unfold getattr at 1 in H.
    destruct (undirected m1) as [b |].
    + unfold bind at 1 in H.
      destruct (negb (Bool.eqb b (forallb (is_almost_symmetric L) (graphs_of out)))).
      * unfold raise in H. inversion H; subst. left. eauto.
      * unfold ret at 1 in H. unfold bind at 1 in H.
        match type of H with
        | (let (_, _) := ?c m1 in _) = _ =>
            assert (Hs : exists r1, c m1 = (r1, m1))
        end.
        { apply reads_only_try.
          - apply reads_only_getattr.
          - apply reads_only_raise.
          - intros _.
            destruct (negb (forallb (is_almost_symmetric L) (graphs_of out))).
            + apply reads_only_bind; [apply reads_only_getattr | intros Ul].
              apply reads_only_bind; [apply reads_only_lift | intros P].
              apply reads_only_bind;
                [apply reads_only_latent_right_operand | intros Vr].
              apply reads_only_bind; [apply reads_only_lift | intros _].
              apply reads_only_ret.
            + apply reads_only_bind; [apply reads_only_getattr | intros Ul].
              apply reads_only_bind; [apply reads_only_lift | intros _].
              apply reads_only_ret. }
        destruct Hs as (r1 & Hs). rewrite Hs in H.
        destruct r1 as [[] | e1].
        -- right. exists out, m1. split; [reflexivity | exact H].
        -- inversion H; subst. left. eauto.
    + inversion H; subst. left. eauto.
  - rewrite (bind_raise _ _ _ Hc) in H. inversion H; subst. left. eauto.
Qed.

(** X2: neither [fit] nor [transform], whether it returns or raises, changes
    a parameter of the constructor ([n_components], [n_elbows],
    [algorithm], [n_iter], [check_lcc], [scaled]); and neither assigns
    [n_components_] or [singular_values_]: after [MultipleASE.fit] they
    are what they were before. *)
Theorem fit_and_transform_keep_parameters graphs m :
  (forall r m', MultipleASE.fit L graphs m = (r, m') -> same_parameters m m') /\
  (forall r m',
     MultipleASE.transform L graphs m = (r, m') -> same_parameters m m').
Proof.
  split; [intros r m'; apply fit_parameters |].
  intros r m' H. destruct (transform_cases _ _ H) as [(r0 & e & Hc & _) | (out & m1 & Hc & Hf)].
  - apply (check_parameters _ _ Hc).
  - eapply same_parameters_trans; [apply (check_parameters _ _ Hc) |].
    unfold MultipleASE.fit_transform, BaseEmbed._fit_transform in Hf.
    destruct (MultipleASE.fit L (as_graphs (nxgraph L) out) m1)
      as [[[] | e] m2] eqn:Hfit.
    + rewrite (bind_run _ _ _ Hfit) in Hf. unfold getattr in Hf.
      destruct (scores_ m2); inversion Hf; subst; apply (fit_parameters _ _ Hfit).
    + rewrite (bind_raise _ _ _ Hfit) in Hf. inversion Hf; subst.
      apply (fit_parameters _ _ Hfit).
Qed.

(** X3: a [fit] that raises has not assigned [scores_]: the object still
    holds the scores of the fit before it, or none. *)
Theorem failed_fit_keeps_scores graphs m e m' :
  MultipleASE.fit L graphs m = (Raise e, m') -> scores_ m' = scores_ m.
Proof.
  intros H.
  destruct (BaseEmbedMulti._check_input_graphs L graphs m) as [[out | e0] m1] eqn:Hc.
  - destruct (check_frame _ _ _ Hc) as (_ & _ & _ & Hs & _).
    destruct (fit_after_check _ _ Hc H) as (_ & Hq).
    rewrite (Hq e eq_refl). exact Hs.
  - unfold MultipleASE.fit in H. rewrite (bind_raise _ _ _ Hc) in H.
    inversion H; subst.
    destruct (check_frame _ _ _ Hc) as (_ & _ & _ & Hs & _). exact Hs.
Qed.

(** X4: what [transform] returns is what it has stored: after a
    [transform] that returns [S], the attribute [scores_] is [S]. *)
Theorem transform_returns_stored_scores graphs m S m' :
  MultipleASE.transform L graphs m = (Ok S, m') -> scores_ m' = Some S.
Proof.
  intros H.
  destruct (transform_cases _ _ H) as [(r0 & e & _ & He) | (out & m1 & _ & Hf)];
    [discriminate |].
  unfold MultipleASE.fit_transform, BaseEmbed._fit_transform in Hf.
  apply bind_ok_inv in Hf. destruct Hf as ([] & m2 & _ & Hg).
  unfold getattr in Hg. destruct (scores_ m2) eqn:E; inversion Hg; subst.
  exact E.
Qed.

(** X5: after a successful [fit] on a list of graphs, [n_graphs_] is the
    number of graphs given, which is at least two, [n_vertices_] is the
    number of rows of the first imported graph, and [scores_] holds one
    matrix for each graph. *)
Theorem fit_bookkeeping (gs : list (graph_like N (nxgraph L))) m m' :
  MultipleASE.fit L (PyList gs) m = (Ok tt, m') ->
  exists out S,
    mapM (import_graph L) gs = Ok out /\
    2 <= length gs /\
    n_graphs_ m' = Some (length gs) /\
    n_vertices_ m' = Some (Mat.nrows (hd [] out)) /\
    scores_ m' = Some S /\
    length S = length gs.
Proof.
  intros H.
  destruct (fit_ok_inv _ _ _ H)
    as (out & m1 & Uhat & Vhat & S & Hc & _ & Hp & ->).
  destruct (project_slices _ _ _ Hp) as (Hlen & _).
  unfold BaseEmbedMulti._check_input_graphs in Hc.
  apply bind_ok_inv in Hc. destruct Hc as (out' & m2 & Hi & Hc).
  destruct (length gs <=? 1) eqn:Hl; [discriminate |].
  apply Nat.leb_gt in Hl.
  apply bind_ok_inv in Hi. destruct Hi as (imported & m3 & Hm & Hret).
  unfold lift in Hm. inversion Hm as [[Hm' Hs]]. subst m3.
  unfold ret in Hret. inversion Hret; subst. clear Hret Hm.
  pose proof (mapM_length _ _ Hm') as Hlen2.
  apply bind_ok_inv in Hc. destruct Hc as ([] & m3 & Hg & Hc).
  unfold modify in Hg. inversion Hg; subst m3. clear Hg.
  apply bind_ok_inv in Hc. destruct Hc as ([] & m4 & Hv & Hc).
  unfold ret in Hc. inversion Hc; subst. clear Hc.
  simpl graphs_of in *.
  exists imported, S.
  destruct imported as [| g0 rest]; [discriminate |].
  unfold modify in Hv. inversion Hv; subst. simpl.
  simpl in Hlen, Hlen2.
  repeat split;
    first [exact Hm' | lia | reflexivity | f_equal; exact Hlen2].
Qed.

(** X6: after a successful [fit], [get_latent] changes nothing and returns,
    for an undirected model (where [latent_right_] is [None]), the array
    [latent_left_] alone, and for a directed model the tuple of
    [latent_left_] and [latent_right_]. *)
Theorem get_latent_after_fit graphs m m' :
  MultipleASE.fit L graphs m = (Ok tt, m') ->
  exists Uhat,
    latent_left_ m' = Some Uhat /\
    ((undirected m' = Some true /\
      latent_right_ m' = Some None /\
      MultipleASE.get_latent m' = (Ok (MultipleASE.Single Uhat), m')) \/
     (exists Vhat,
        undirected m' = Some false /\
        latent_right_ m' = Some (Some Vhat) /\
        MultipleASE.get_latent m'
        = (Ok (MultipleASE.Tuple Uhat (Some Vhat)), m'))).
Proof.
  intros H.
  destruct (fit_ok_inv _ _ _ H)
    as (out & m1 & Uhat & Vhat & S & _ & _ & _ & ->).
  exists Uhat. simpl. split; [reflexivity |].
  destruct (forallb (is_almost_symmetric L) (graphs_of out)) eqn:Hu.
  - left. unfold checked_state. simpl. rewrite Hu.
    repeat split; reflexivity.
  - right. exists Vhat. unfold checked_state. simpl. rewrite Hu.
    repeat split; reflexivity.
Qed.

(** ** The first stage *)

(** X7: the rank of the first stage, [ceil (log2 n)], is never negative and
    always below the number [n] of vertices; it is zero exactly for
    one-vertex graphs; and there is none for no vertex at all, where the
    conversion of [log2 0] raises [OverflowError]. *)
Theorem first_stage_rank_bounds (n : nat) :
  (n = 0 -> ceil_log2 n = Raise OverflowError) /\
  (1 <= n ->
   exists rank,
     ceil_log2 n = Ok rank /\
     (0 <= rank < Z.of_nat n)%Z /\
     (rank = 0%Z <-> n = 1)).
Proof.
  split.
  - intros ->. reflexivity.
  - intros Hn. exists (Z.log2_up (Z.of_nat n)).
    split; [destruct n; [lia | reflexivity] |].
    split.
    + split; [apply Z.log2_up_nonneg | apply Z.log2_up_lt_lin; lia].
    + split.
      * intros H0.
        destruct (Z.eq_dec (Z.of_nat n) 1) as [E | E]; [lia |].
        pose proof (Z.log2_up_pos (Z.of_nat n) ltac:(lia)). lia.
      * intros ->. reflexivity.
Qed.

Lemma py_upto_all {A} (d : Z) (l : list A) :
  (Z.of_nat (length l) <= d)%Z -> py_upto d l = l.
Proof.
  intros H. unfold py_upto.
  destruct (0 <=? d)%Z eqn:E; [| apply Z.leb_gt in E; lia].
  apply firstn_all2. lia.
Qed.

Lemma cols_upto_all n r d (U : Mat.matrix N) :
  has_shape n r U -> (Z.of_nat r <= d)%Z -> Mat.cols_upto d U = U.
Proof.
  intros (_ & Hall) Hd. unfold Mat.cols_upto.
  rewrite <- (map_id U) at 2. apply map_ext_in.
  intros row Hrow. rewrite Forall_forall in Hall.
  apply py_upto_all. rewrite (Hall _ Hrow). exact Hd.
Qed.

Lemma mapM_ext_in {A B} (f g : A -> result B) (l : list A) :
  (forall x, In x l -> f x = g x) -> mapM f l = mapM g l.
Proof.
  induction l as [| x t IH]; intros H; simpl; [reflexivity |].
  rewrite (H x (or_introl eq_refl)).
  rewrite IH by (intros y Hy; apply H; right; exact Hy). reflexivity.
Qed.

(** X8: a dimension at or above the rank [r] of the first stage does not
    change what is stacked: for factors of [r] columns and [r] singular
    values each, the stacked matrix for any [best >= r] is the one for
    [best = r], and without scaling it is [np.hstack] of the factors
    themselves.  An [n_components] above [ceil (log2 n)] only reaches the
    second stage. *)
Theorem stacking_ignores_excess_dimension m best
    (Us : list (Mat.matrix N)) Ds n r :
  Forall (has_shape n r) Us ->
  Forall2 (fun U D => length D = r) Us Ds ->
  (Z.of_nat r <= best)%Z ->
  MultipleASE.stack_left m best Us Ds
  = MultipleASE.stack_left m (Z.of_nat r) Us Ds /\
  (scaled m = false -> MultipleASE.stack_left m best Us Ds = Mat.hstack Us).
Proof.
  intros HUs HDs Hb.
  assert (Hcanon : forall d, (Z.of_nat r <= d)%Z ->
            MultipleASE.stack_left m d Us Ds
            = if negb (scaled m) then Mat.hstack Us
              else rbind (mapM (fun UD =>
                                  Mat.matmul (fst UD)
                                    (Mat.diag (Mat.vsqrt (snd UD))))
                               (combine Us Ds))
                         (fun blocks => Mat.hstack blocks)).
  { intros d Hd. unfold MultipleASE.stack_left.
    destruct (negb (scaled m)).
    - f_equal. rewrite <- (map_id Us) at 2. apply map_ext_in.
      intros U HU. rewrite Forall_forall in HUs.
      apply (cols_upto_all (HUs _ HU) Hd).
    - f_equal. apply mapM_ext_in. intros [U D] HUD. simpl.
      rewrite Forall_forall in HUs.
      rewrite (cols_upto_all (HUs _ (in_combine_l _ _ _ _ HUD)) Hd).
      rewrite py_upto_all; [reflexivity |].
      clear - HDs HUD Hd. induction HDs as [| U' D' Us' Ds' HD _ IH].
      + destruct HUD.
      + destruct HUD as [E | HUD]; [inversion E; subst; lia | apply IH; exact HUD]. }
  split.
  - rewrite (Hcanon best Hb), (Hcanon (Z.of_nat r) ltac:(lia)). reflexivity.
  - intros Hs. rewrite (Hcanon best Hb), Hs. reflexivity.
Qed.

(** ** The scores *)

(** X9: for bases [Uhat] of [n] rows and [d1] columns and [Vhat] of [n] rows
    and [d2] columns, and graphs of [n] rows and [n] columns each, the
    product [Uhat.T @ graphs @ Vhat] does not raise, and gives one matrix of
    [d1] rows and [d2] columns for each graph. *)
Theorem projection_shapes n d1 d2 (Uhat Vhat : Mat.matrix N)
    (graphs : list (Mat.matrix N)) :
  1 <= n ->
  1 <= d1 ->
  has_shape n d1 Uhat ->
  has_shape n d2 Vhat ->
  Forall (has_shape n n) graphs ->
  exists S,
    MultipleASE.project Uhat graphs Vhat = Ok S /\
    length S = length graphs /\
    Forall (has_shape d1 d2) S.
Proof.
  intros Hn Hd HU HV HG.
  assert (HT : Mat.as_tensor graphs = Ok graphs).
  { unfold Mat.as_tensor. destruct graphs as [| G rest]; [reflexivity |].
    inversion HG as [| ? ? HG0 Hrest]; subst.
    replace (forallb _ rest) with true; [reflexivity |].
    symmetry. apply forallb_forall. intros X HX.
    rewrite Forall_forall in Hrest. specialize (Hrest X HX).
    unfold Mat.shape_eqb, Mat.shape. simpl.
    rewrite (has_shape_ncols Hrest Hn), (has_shape_ncols HG0 Hn).
    destruct Hrest as (-> & _). destruct HG0 as (-> & _).
    rewrite !Nat.eqb_refl. reflexivity. }
  unfold MultipleASE.project, MultipleASE.project_left, rbind. rewrite HT.
  unfold Mat.matmul_l, Mat.matmul_r.
  clear HT. induction HG as [| G rest HG0 _ IH].
  - exists []. simpl. repeat split. constructor.
  - destruct IH as (S & HS & Hlen & Hsh).
    destruct (@matmul_shape N d1 n n (Mat.transpose Uhat) G) as (P & HP & HPs).
    + apply transpose_shape; assumption.
    + exact Hd.
    + apply HG0.
    + apply (has_shape_ncols HG0 Hn).
    + destruct (@matmul_shape N d1 n d2 P Vhat) as (R & HR & HRs).
      * exact HPs.
      * exact Hd.
      * apply HV.
      * apply (has_shape_ncols HV Hn).
      * destruct (mapM (fun G0 => Mat.matmul (Mat.transpose Uhat) G0) rest)
          as [Ps |] eqn:HPs'; [| discriminate].
        exists (R :: S). simpl. rewrite HP, HPs'. simpl. rewrite HR.
        simpl in HS. rewrite HS.
        repeat split; [simpl; congruence | constructor; assumption].
Qed.

(** ** Entries *)

Lemma nth_map_lt {A B} (f : A -> B) (l : list A) (i : nat) (d : A) (d' : B) :
  i < length l -> nth i (map f l) d' = f (nth i l d).
Proof.
  intros Hi. rewrite (nth_indep _ d' (f d)) by (rewrite length_map; exact Hi).
  apply map_nth.
Qed.

Lemma entry_identity n i j :
  i < n -> j < n ->
  entry i j (Mat.identity N n) = if Nat.eqb i j then f1 N else f0 N.
Proof.
  intros Hi Hj. unfold entry, Mat.identity.
  rewrite (nth_map_lt _ _ 0) by (rewrite length_seq; exact Hi).
  rewrite (nth_map_lt _ _ 0) by (rewrite length_seq; exact Hj).
  rewrite !seq_nth by assumption. reflexivity.
Qed.

Lemma entry_ones r c i j :
  i < r -> j < c -> entry i j (Mat.ones N r c) = f1 N.
Proof.
  intros Hi Hj. unfold entry, Mat.ones.
  rewrite (nth_indep _ [] (repeat (f1 N) c)) by (rewrite repeat_length; exact Hi).
  rewrite nth_repeat.
  rewrite (nth_indep _ (f0 N) (f1 N)) by (rewrite repeat_length; exact Hj).
  apply nth_repeat.
Qed.

Lemma entry_mmap n c f (B : Mat.matrix N) i j :
  has_shape n c B -> i < n -> j < c ->
  entry i j (Mat.mmap f B) = f (entry i j B).
Proof.
  intros HB Hi Hj. unfold entry, Mat.mmap.
  rewrite (nth_map_lt _ _ []) by (destruct HB as (HBn & _); unfold Mat.nrows in HBn; lia).
  apply nth_map_lt. rewrite (has_shape_row HB Hi). exact Hj.
Qed.

Lemma entry_map2 n c f (A B : Mat.matrix N) i j :
  has_shape n c A -> has_shape n c B -> i < n -> j < c ->
  entry i j (Mat.map2 f A B) = f (entry i j A) (entry i j B).
Proof.
  intros HA HB Hi Hj. unfold entry, Mat.map2.
  assert (HAn : length A = n) by apply HA.
  assert (HBn : length B = n) by apply HB.
  rewrite (nth_map_lt _ _ ([], [])) by (rewrite length_combine; lia).
  rewrite combine_nth by congruence. cbv beta. cbn [fst snd].
  pose proof (has_shape_row HA Hi) as Ha.
  pose proof (has_shape_row HB Hi) as Hb.
  rewrite (nth_map_lt _ _ (f0 N, f0 N)) by (rewrite length_combine; lia).
  rewrite combine_nth by congruence. reflexivity.
Qed.

(** ** mds.py *)

(** X10: [_get_centering_matrix n] raises [ZeroDivisionError] for [n = 0];
    for [n >= 1] it is a matrix of [n] rows and [n] columns whose entry
    [(i, j)] is [1 - (1/n) * 1] on the diagonal and [0 - (1/n) * 1] off it,
    so that it equals its transpose entry by entry. *)
Theorem centering_matrix_entries (n : nat) :
  (n = 0 -> ClassicalMDS._get_centering_matrix N n = Raise ZeroDivisionError) /\
  (1 <= n ->
   exists J,
     ClassicalMDS._get_centering_matrix N n = Ok J /\
     has_shape n n J /\
     forall i j, i < n -> j < n ->
       entry i j J
       = fsub N (if Nat.eqb i j then f1 N else f0 N)
           (fmul N (fdiv N (f1 N) (f_of_nat N n)) (f1 N)) /\
       entry i j J = entry j i J).
Proof.
  split; [intros ->; reflexivity |].
  intros Hn. eexists. split.
  { unfold ClassicalMDS._get_centering_matrix. destruct n; [lia | reflexivity]. }
  split; [apply centering_matrix_shape |].
  assert (He : forall i j, i < n -> j < n ->
            entry i j
              (Mat.msub (Mat.identity N n)
                 (Mat.scale_l (fdiv N (f1 N) (f_of_nat N n)) (Mat.ones N n n)))
            = fsub N (if Nat.eqb i j then f1 N else f0 N)
                (fmul N (fdiv N (f1 N) (f_of_nat N n)) (f1 N))).
  { intros i j Hi Hj. unfold Mat.msub, Mat.scale_l.
    rewrite (@entry_map2 n n) by
      (first [apply identity_shape | apply mmap_shape; apply ones_shape | assumption]).
    rewrite entry_identity by assumption.
    rewrite (@entry_mmap n n) by (first [apply ones_shape | assumption]).
    rewrite entry_ones by assumption. reflexivity. }
  intros i j Hi Hj. split; [apply He; assumption |].
  rewrite !He by assumption. rewrite (Nat.eqb_sym j i). reflexivity.
Qed.

Lemma squares_of_difference_sym (a b : Mat.vector N) :
  distance_laws N ->
  map (fun x => fmul N x x) (ClassicalMDS.vsub a b)
  = map (fun x => fmul N x x) (ClassicalMDS.vsub b a).
Proof.
  intros (_ & _ & _ & _ & Hsym). unfold ClassicalMDS.vsub.
  revert b. induction a as [| x a IH]; intros [| y b]; simpl; try reflexivity.
  rewrite IH, Hsym. reflexivity.
Qed.

Lemma norm_of_self_difference (a : Mat.vector N) :
  distance_laws N -> Mat.norm2 (ClassicalMDS.vsub a a) = f0 N.
Proof.
  intros (Hsub & Hmul & Hadd & Hsqrt & _). unfold Mat.norm2, Mat.sum.
  assert (H : fold_left (fadd N)
                (map (fun x => fmul N x x) (ClassicalMDS.vsub a a)) (f0 N)
              = f0 N).
  { unfold ClassicalMDS.vsub. induction a as [| x a IH]; simpl; [reflexivity |].
    rewrite Hsub, Hmul, Hadd. exact IH. }
  rewrite H. exact Hsqrt.
Qed.

(** X11: for a two-dimensional array of [n] rows,
    [_compute_euclidean_distances] returns a matrix of [n] rows and [n]
    columns whose entry [(i, j)] is the norm of [X[j] - X[i]]; where the
    scalars satisfy [x - x = 0], [0 * 0 = 0], [0 + 0 = 0], [sqrt 0 = 0] and
    [(a - b) * (a - b) = (b - a) * (b - a)], its diagonal is zero and it is
    symmetric. *)
Theorem euclidean_distances_matrix (A : Mat.matrix N) :
  exists D,
    ClassicalMDS._compute_euclidean_distances (Arr2 A) = Ok D /\
    has_shape (Mat.nrows A) (Mat.nrows A) D /\
    (forall i j, i < Mat.nrows A -> j < Mat.nrows A ->
       entry i j D
       = Mat.norm2 (ClassicalMDS.vsub (nth j A []) (nth i A []))) /\
    (distance_laws N ->
     forall i j, i < Mat.nrows A -> j < Mat.nrows A ->
       entry i i D = f0 N /\ entry i j D = entry j i D).
Proof.
  eexists. split; [reflexivity |].
  assert (He : forall i j, i < Mat.nrows A -> j < Mat.nrows A ->
            entry i j
              (map (fun Xi => map (fun Xj => Mat.norm2 (ClassicalMDS.vsub Xj Xi)) A) A)
            = Mat.norm2 (ClassicalMDS.vsub (nth j A []) (nth i A []))).
  { intros i j Hi Hj. unfold entry.
    rewrite (nth_map_lt _ _ ([] : Mat.vector N)) by exact Hi.
    rewrite (nth_map_lt _ _ ([] : Mat.vector N)) by exact Hj. reflexivity. }
  split; [| split; [exact He |]].
  - split.
    + unfold Mat.nrows. apply length_map.
    + rewrite Forall_forall. intros row Hrow.
      apply in_map_iff in Hrow. destruct Hrow as (Xi & <- & _).
      apply length_map.
  - intros Hlaws i j Hi Hj. rewrite !He by assumption. split.
    + apply norm_of_self_difference. exact Hlaws.
    + unfold Mat.norm2. rewrite (squares_of_difference_sym _ _ Hlaws).
      reflexivity.
Qed.

Lemma reads_only_get {S} : reads_only (@get S).
Proof. intros s. eexists. reflexivity. Qed.

Lemma reads_only_check_n_components (X : ndarray N) :
  reads_only (@ClassicalMDS.check_n_components N X).
Proof.
  unfold ClassicalMDS.check_n_components.
  apply reads_only_bind; [apply reads_only_get | intros self].
  destruct (ClassicalMDS.n_components self); [| apply reads_only_ret].
  apply reads_only_bind; [apply reads_only_lift | intros n_samples].
  destruct (_ <? _)%Z; [apply reads_only_raise | apply reads_only_ret].
Qed.

Lemma reads_only_handle_dissimilarity (X : ndarray N) :
  reads_only (ClassicalMDS.handle_dissimilarity L X).
Proof.
  unfold ClassicalMDS.handle_dissimilarity.
  apply reads_only_bind; [apply reads_only_get | intros self].
  destruct (String.eqb _ "precomputed").
  - apply reads_only_bind; [apply reads_only_lift | intros D].
    destruct (negb _); [apply reads_only_raise | apply reads_only_ret].
  - destruct (String.eqb _ "euclidean"); [| apply reads_only_raise].
    apply reads_only_bind; [apply reads_only_lift | intros X'].
    apply reads_only_lift.
Qed.

(** [ClassicalMDS.fit]: what it raises it raises before it assigns. *)
Lemma mds_fit_inv X m r m' :
  ClassicalMDS.fit L X m = (r, m') ->
  match r with
  | Raise _ => m' = m
  | Ok _ => exists U S D, m' = mds_fitted m U S D
  end.
Proof.
  unfold ClassicalMDS.fit. destruct X as [X |].
  - unfold bind at 1.
    destruct (reads_only_check_n_components X m) as (r1 & ->).
    destruct r1 as [[] | e]; [| intros H; inversion H; reflexivity].
    unfold bind at 1.
    destruct (reads_only_handle_dissimilarity X m) as (r2 & ->).
    destruct r2 as [D | e]; [| intros H; inversion H; reflexivity].
    unfold bind at 1. unfold lift at 1.
    destruct (ClassicalMDS._get_centering_matrix N (Mat.nrows D)) as [J | e];
      [| intros H; inversion H; reflexivity].
    unfold bind at 1. unfold lift at 1.
    destruct (ClassicalMDS.double_center J D) as [B | e];
      [| intros H; inversion H; reflexivity].
    unfold bind at 1. unfold get at 1.
    unfold bind at 1. unfold lift at 1.
    destruct (selectSVD L B _ _ _ _) as [[[U S] V] | e];
      [| intros H; inversion H; reflexivity].
    unfold bind, modify. intros H; inversion H; subst.
    exists U, S, D. reflexivity.
  - unfold raise. intros H; inversion H; reflexivity.
Qed.

(** X12: [ClassicalMDS.fit] is all or nothing.  When it raises, the object
    is exactly as before.  When it returns, [components_],
    [singular_values_], [n_components_] and [dissimilarity_matrix_] are all
    assigned, [n_components_] is the number of singular values stored, and
    the two parameters of the constructor are unchanged. *)
Theorem mds_fit_all_or_nothing X m r m' :
  ClassicalMDS.fit L X m = (r, m') ->
  match r with
  | Raise _ => m' = m
  | Ok _ =>
      exists U sv D,
        ClassicalMDS.components_ m' = Some U /\
        ClassicalMDS.singular_values_ m' = Some sv /\
        ClassicalMDS.n_components_ m' = Some (length sv) /\
        ClassicalMDS.dissimilarity_matrix_ m' = Some D /\
        ClassicalMDS.n_components m' = ClassicalMDS.n_components m /\
        ClassicalMDS.dissimilarity m' = ClassicalMDS.dissimilarity m
  end.
Proof.
  intros H. apply mds_fit_inv in H. destruct r as [[] | e]; [| exact H].
  destruct H as (U & S & D & ->).
  exists U, (Mat.vsqrt S), D. unfold mds_fitted. simpl.
  repeat split. unfold Mat.vsqrt. rewrite length_map. reflexivity.
Qed.

(** X13: [ClassicalMDS.transform] on an object without [components_]
    raises [AttributeError] and changes nothing: the handler, which is for
    [ValueError], does not run.  On an object with [components_] it fits
    the model again on its argument and returns what [fit_transform]
    returns, with the object that [fit_transform] leaves. *)
Theorem mds_transform_refits X m :
  (ClassicalMDS.components_ m = None ->
   ClassicalMDS.transform L X m = (Raise AttributeError, m)) /\
  (forall U r m',
     ClassicalMDS.components_ m = Some U ->
     ClassicalMDS.fit_transform L X m = (r, m') ->
     ClassicalMDS.transform L X m
     = (match r with
        | Ok X_new => Ok (ClassicalMDS.Embedded X_new)
        | Raise e => Raise e
        end, m')).
Proof.
  unfold ClassicalMDS.transform, try_except_else, getattr. split.
  - intros ->. reflexivity.
  - intros U r m' -> H. cbv beta iota.
    unfold ClassicalMDS.fit_transform in H.
    unfold bind, getattr, lift, ret in *.
    destruct (ClassicalMDS.fit L X m) as [[[] | e] m1];
      [| inversion H; reflexivity].
    destruct (ClassicalMDS.components_ m1) as [C |];
      [| inversion H; reflexivity].
    destruct (ClassicalMDS.singular_values_ m1) as [sv |];
      [| inversion H; reflexivity].
    destruct (Mat.matmul C (Mat.diag sv)); inversion H; reflexivity.
Qed.

(** ** The single-graph embedder, step by step *)

(** X14: [BaseEmbed._reduce_dim].  When the solver raises, the exception
    passes through and the object is unchanged.  When the solver returns
    [(U, D, V)], the method assigns [n_components_ = len(D)] and
    [singular_values_ = D] whether or not the products that follow raise;
    it assigns [latent_right_] only after [latent_left_]; and it never
    touches [scores_], [undirected], [n_graphs_], [n_vertices_] or a
    parameter of the constructor ([n_components], [n_elbows], [algorithm],
    [n_iter], [check_lcc], [scaled]). *)
Theorem single_graph_reduce_dim_steps A m :
  (forall e,
     selectSVD L A (n_components m) (Some (n_elbows m)) (Some (algorithm m))
       (Some (n_iter m)) = Raise e ->
     BaseEmbed._reduce_dim L A m = (Raise e, m)) /\
  (forall U D V r m',
     selectSVD L A (n_components m) (Some (n_elbows m)) (Some (algorithm m))
       (Some (n_iter m)) = Ok (U, D, V) ->
     BaseEmbed._reduce_dim L A m = (r, m') ->
     n_components_ m' = Some (length D) /\
     singular_values_ m' = Some D /\
     (latent_right_ m' <> latent_right_ m -> latent_left_ m' <> None) /\
     scores_ m' = scores_ m /\
     undirected m' = undirected m /\
     n_graphs_ m' = n_graphs_ m /\
     n_vertices_ m' = n_vertices_ m /\
     n_components m' = n_components m /\
     n_elbows m' = n_elbows m /\
     algorithm m' = algorithm m /\
     n_iter m' = n_iter m /\
     check_lcc m' = check_lcc m /\
     scaled m' = scaled m).
Proof.
  split.
  - intros e He. unfold BaseEmbed._reduce_dim, bind, get, lift.
    rewrite He. reflexivity.
  - intros U D V r m' Hsvd. unfold BaseEmbed._reduce_dim, bind, get, lift, modify.
    rewrite Hsvd.
    destruct (Mat.matmul U (Mat.diag (Mat.vsqrt D))) as [X |].
    + destruct (negb (is_almost_symmetric L A)).
      * destruct (Mat.matmul (Mat.transpose V) (Mat.diag (Mat.vsqrt D)));
          intros H; inversion H; subst; simpl; repeat split;
            intros _; discriminate.
      * intros H; inversion H; subst; simpl; repeat split;
          intros _; discriminate.
    + intros H; inversion H; subst; simpl; repeat split.
      intros Hne. congruence.
Qed.

End MoreProperties.

(** * Examples in the concrete setting *)

Module Examples.
Import BaseEmbed.
Import Demo.

(** ** Instances of the general statements *)

Lemma fit_stores_basis_and_scores_witness :
  MultipleASE.fit library (pair directed2) (mase (Some 1%Z))
  = (Ok tt, fitted_on (pair directed2) (mase (Some 1%Z))) /\
  exists out m1 Uhat Vhat S b,
    BaseEmbedMulti._check_input_graphs library (pair directed2)
      (mase (Some 1%Z)) = (Ok out, m1) /\
    MultipleASE._reduce_dim library (graphs_of out)
      (checked_state library m1 out)
    = (Ok (Uhat, Vhat), checked_state library m1 out) /\
    undirected (fitted_on (pair directed2) (mase (Some 1%Z))) = Some b /\
    (b = true <->
     Forall (fun G => is_almost_symmetric library G = true) (graphs_of out)) /\
    latent_left_ (fitted_on (pair directed2) (mase (Some 1%Z))) = Some Uhat /\
    latent_right_ (fitted_on (pair directed2) (mase (Some 1%Z)))
    = Some (if b then None else Some Vhat) /\
    scores_ (fitted_on (pair directed2) (mase (Some 1%Z))) = Some S /\
    length S = length (graphs_of out) /\
    forall i G, nth_error (graphs_of out) i = Some G ->
      exists P R,
        Mat.matmul (Mat.transpose Uhat) G = Ok P /\
        Mat.matmul P (if b then Uhat else Vhat) = Ok R /\
        nth_error S i = Some R.
Proof.
  split; [vm_compute; reflexivity |].
  apply (@fit_stores_basis_and_scores rationals library (pair directed2)
           (mase (Some 1%Z)) (fitted_on (pair directed2) (mase (Some 1%Z)))).
  vm_compute; reflexivity.
Defined.


Lemma transform_directedness_mismatch_witness :
  BaseEmbedMulti._check_input_graphs library (pair directed2)
    (fitted_on (pair heavy_first) (mase (Some 1%Z)))
  = (Ok (OutList [directed2; directed2]),
     fitted_on (pair heavy_first) (mase (Some 1%Z))) /\
  undirected (fitted_on (pair heavy_first) (mase (Some 1%Z))) = Some true /\
  MultipleASE.transform library (pair directed2)
    (fitted_on (pair heavy_first) (mase (Some 1%Z)))
  = (Raise TypeError, fitted_on (pair heavy_first) (mase (Some 1%Z))).
Proof.
  split; [vm_compute; reflexivity |].
  split; [vm_compute; reflexivity |].
  apply (@transform_directedness_mismatch rationals library (pair directed2)
           (fitted_on (pair heavy_first) (mase (Some 1%Z)))
           (OutList [directed2; directed2])
           (fitted_on (pair heavy_first) (mase (Some 1%Z))) true).
  - vm_compute; reflexivity.
  - vm_compute; reflexivity.
  - vm_compute. discriminate.
Defined.

Lemma reduce_dim_shared_dimension_witness :
  MultipleASE._reduce_dim library [four; four] checked_four
  = (Ok (fst bases_four, snd bases_four), checked_four) /\
  exists n rank embeddings best Us' Vs',
    n_vertices_ checked_four = Some n /\
    (Z.of_nat n <= 2 ^ rank)%Z /\
    ((1 < Z.of_nat n)%Z -> (2 ^ (rank - 1) < Z.of_nat n)%Z) /\
    Forall2 (fun G e =>
               selectSVD library G (Some rank) None
                 (Some (algorithm checked_four)) (Some (n_iter checked_four))
               = Ok e)
            [four; four] embeddings /\
    match n_components checked_four with
    | Some d => best = d
    | None =>
        exists dims,
          Forall2 (fun e k =>
                     exists pre likelihoods,
                       select_dimension library (snd (fst e))
                         (n_elbows checked_four)
                       = Ok (pre ++ [k], likelihoods))
                  embeddings dims /\
          In best dims /\
          Forall (fun k => (k <= best)%Z) dims
    end /\
    MultipleASE.stack_left checked_four best
      (map (fun e => fst (fst e)) embeddings)
      (map (fun e => snd (fst e)) embeddings) = Ok Us' /\
    MultipleASE.stack_right checked_four best
      (map (fun e => snd e) embeddings)
      (map (fun e => snd (fst e)) embeddings) = Ok Vs' /\
    MultipleASE.joint_basis library checked_four Us' = Ok (fst bases_four) /\
    MultipleASE.joint_basis library checked_four Vs' = Ok (snd bases_four).
Proof.
  split; [vm_compute; reflexivity |].
  apply (@reduce_dim_shared_dimension rationals library [four; four]
           checked_four (fst bases_four) (snd bases_four) checked_four).
  vm_compute; reflexivity.
Defined.

Lemma stacked_blocks_witness :
  has_shape 4 2 four_U /\
  length four_D = 2 /\
  (exists blocks,
     blocks = map (fun U => Mat.cols_upto 3 U) [four_U; four_U] /\
     MultipleASE.stack_left (mase (Some 3%Z)) 3 [four_U; four_U]
       [four_D; four_D] = Ok (Mat.hconcat 4 blocks) /\
     has_shape 4 (2 * kept 3 2) (Mat.hconcat 4 blocks)) /\
  ((0 <= 3 <= Z.of_nat 2)%Z -> kept 3 2 = Z.to_nat 3) /\
  ((Z.of_nat 2 <= 3)%Z -> kept 3 2 = 2) /\
  (forall Vs,
     MultipleASE.stack_right (mase (Some 3%Z)) 3 Vs [four_D; four_D]
     = MultipleASE.stack_left (mase (Some 3%Z)) 3
         (map (fun V => Mat.transpose V) Vs) [four_D; four_D]).
Proof.
  assert (HU : has_shape 4 2 four_U).
  { split; [reflexivity | repeat constructor]. }
  split; [exact HU |].
  split; [reflexivity |].
  apply (@stacked_blocks rationals (mase (Some 3%Z)) 3 [four_U; four_U]
           [four_D; four_D] 4 2).
  - discriminate.
  - lia.
  - repeat constructor; apply HU.
  - repeat constructor.
Defined.

Lemma single_graph_latent_positions_witness :
  selectSVD library directed2 (Some 1%Z) (Some 2%Z) (Some "randomized"%string)
    (Some 5%Z) = Ok (directed2_U, directed2_D, directed2_V) /\
  exists X Y,
    Mat.matmul (directed2_U) (Mat.diag (Mat.vsqrt directed2_D)) = Ok X /\
    Mat.matmul (Mat.transpose directed2_V) (Mat.diag (Mat.vsqrt directed2_D))
    = Ok Y /\
    Mat.nrows X = 2 /\
    Mat.nrows Y = 2 /\
    BaseEmbed._reduce_dim library directed2 (mase (Some 1%Z))
    = (Ok tt,
       set_latent_right_
         (if is_almost_symmetric library directed2 then None else Some Y)
         (set_latent_left_ X
            (set_singular_values_ directed2_D
               (set_n_components_ 1 (mase (Some 1%Z)))))).
Proof.
  split; [vm_compute; reflexivity |].
  apply (@single_graph_latent_positions rationals library directed2
           (mase (Some 1%Z)) (directed2_U) directed2_D directed2_V 2).
  - vm_compute; reflexivity.
  - lia.
  - simpl; lia.
  - split; [reflexivity | repeat constructor].
  - split; [reflexivity | repeat constructor].
Defined.

Lemma classical_mds_embedding_witness :
  ClassicalMDS.check_n_components (Arr2 distances) mds = (Ok tt, mds) /\
  ClassicalMDS.check_n_components (Arr2 lopsided) mds = (Ok tt, mds) /\
  (exists U S,
     ClassicalMDS.fit_transform library (PyNd (Arr2 distances)) mds
     = (Mat.matmul U (Mat.diag (Mat.vsqrt S)), mds_fitted mds U S distances)) /\
  ClassicalMDS.fit_transform library (PyNd (Arr2 lopsided)) mds
  = (Raise ValueError, mds).
Proof.
  assert (Hd : ClassicalMDS.check_n_components (Arr2 distances) mds = (Ok tt, mds))
    by (vm_compute; reflexivity).
  assert (Hl : ClassicalMDS.check_n_components (Arr2 lopsided) mds = (Ok tt, mds))
    by (vm_compute; reflexivity).
  split; [exact Hd |]. split; [exact Hl |]. split.
  - destruct (@classical_mds_embedding rationals library mds (Arr2 distances) Hd)
      as [Hfit _].
    destruct (Hfit distances 2) as (J & JD & JDJ & _ & HJ & HJD & HJDJ & Hsvd).
    + vm_compute; reflexivity.
    + lia.
    + split; [reflexivity | repeat constructor].
    + subst J. vm_compute in HJD. injection HJD as <-.
      vm_compute in HJDJ. injection HJDJ as <-.
      eexists. eexists. eapply Hsvd. vm_compute. reflexivity.
  - destruct (@classical_mds_embedding rationals library mds (Arr2 lopsided) Hl)
      as [_ Hreject].
    apply (Hreject lopsided).
    + reflexivity.
    + vm_compute; reflexivity.
    + vm_compute; reflexivity.
Defined.

(** ** The code on inputs where it departs from its description *)

(** C1: [transform] on a fitted model and a valid collection of the same
    directedness.  The model is fitted on two copies of [heavy_first], which
    makes the first unit vector the basis; the projection of two copies of
    [heavy_second] onto that basis is [[1]] for each graph.  [transform] on
    these graphs returns [[2]] for each instead, the scores of a new [fit] on
    them, and leaves the second unit vector as [latent_left_]: the fitted
    basis is overwritten. *)
Theorem transform_refits_on_new_graphs :
  MultipleASE.fit library (pair heavy_first) (mase (Some 1%Z))
  = (Ok tt, fitted_on (pair heavy_first) (mase (Some 1%Z))) /\
  latent_left_ (fitted_on (pair heavy_first) (mase (Some 1%Z)))
  = Some (mat [[1]; [0]]%Z) /\
  fitted_projection (fitted_on (pair heavy_first) (mase (Some 1%Z)))
    [heavy_second; heavy_second]
  = Ok [mat [[1]]%Z; mat [[1]]%Z] /\
  MultipleASE.transform library (pair heavy_second)
    (fitted_on (pair heavy_first) (mase (Some 1%Z)))
  = (Ok [mat [[2]]%Z; mat [[2]]%Z],
     fitted_on (pair heavy_second)
       (fitted_on (pair heavy_first) (mase (Some 1%Z)))) /\
  latent_left_
    (fitted_on (pair heavy_second)
       (fitted_on (pair heavy_first) (mase (Some 1%Z))))
  = Some (mat [[0]; [1]]%Z).
Proof.
  split; [vm_compute; reflexivity |].
  split; [vm_compute; reflexivity |].
  split; [vm_compute; reflexivity |].
  split; [| vm_compute; reflexivity].
  rewrite (@transform_is_fit_transform rationals library (pair heavy_second)
             (fitted_on (pair heavy_first) (mase (Some 1%Z)))
             (OutList [heavy_second; heavy_second])
             (fitted_on (pair heavy_first) (mase (Some 1%Z)))
             [mat [[1]]%Z; mat [[1]]%Z]).
  - vm_compute; reflexivity.
  - vm_compute; reflexivity.
  - vm_compute; reflexivity.
  - vm_compute; reflexivity.
Qed.

(** C5: [fit] on a list of a 2 x 2 and a 3 x 3 matrix.  The input check
    accepts the list; both graphs are decomposed; the [ValueError] comes
    from stacking factors of two and of three rows; and the object keeps
    [n_graphs_], [n_vertices_] and [undirected] from the failed call. *)
Theorem fit_accepts_ragged_list :
  exists m1 embeddings m',
    BaseEmbedMulti._check_input_graphs library ragged (mase (Some 1%Z))
    = (Ok (OutList [heavy_first; three]), m1) /\
    MultipleASE.embed_each library m1 1 [heavy_first; three] = Ok embeddings /\
    length embeddings = 2 /\
    Mat.hstack (map (fun e => Mat.cols_upto 1 (fst (fst e))) embeddings)
    = Raise ValueError /\
    MultipleASE.fit library ragged (mase (Some 1%Z)) = (Raise ValueError, m') /\
    n_graphs_ m' = Some 2 /\
    n_vertices_ m' = Some 2 /\
    undirected m' = Some true /\
    m' <> mase (Some 1%Z).
Proof.
  eexists. eexists. eexists.
  split; [vm_compute; reflexivity |].
  split; [vm_compute; reflexivity |].
  split; [reflexivity |].
  split; [vm_compute; reflexivity |].
  split; [vm_compute; reflexivity |].
  split; [reflexivity |].
  split; [reflexivity |].
  split; [reflexivity |].
  discriminate.
Qed.

(** C6: [transform] on a model that was never fitted, with a valid
    collection: the exception is the [AttributeError] of reading
    [undirected], not the [NameError] that the method means to raise. *)
Theorem transform_unfitted_raises_attribute_error :
  BaseEmbedMulti._check_input_graphs library (pair heavy_first)
    (mase (Some 1%Z))
  = (Ok (OutList [heavy_first; heavy_first]),
     snd (BaseEmbedMulti._check_input_graphs library (pair heavy_first)
            (mase (Some 1%Z)))) /\
  MultipleASE.transform library (pair heavy_first) (mase (Some 1%Z))
  = (Raise AttributeError,
     snd (BaseEmbedMulti._check_input_graphs library (pair heavy_first)
            (mase (Some 1%Z)))) /\
  exn_eqb AttributeError NameError = false.
Proof.
  assert (Hc : BaseEmbedMulti._check_input_graphs library (pair heavy_first)
                 (mase (Some 1%Z))
               = (Ok (OutList [heavy_first; heavy_first]),
                  snd (BaseEmbedMulti._check_input_graphs library
                         (pair heavy_first) (mase (Some 1%Z)))))
    by (vm_compute; reflexivity).
  split; [exact Hc |]. split; [| reflexivity].
  rewrite (@transform_before_fit rationals library _ _ _ _ Hc (eq_refl _)).
  reflexivity.
Qed.

(** The claim C4 as the specification words it fails when [n_components]
    exceeds the rank of the first stage: with two graphs on four vertices
    and [n_components = 3], the factors of the first stage have
    [ceil (log2 4) = 2] columns, the stacked matrix is 4 by 4, not 4 by
    [2 * 3], and [fit] goes through. *)
Lemma stacked_width_counterexample :
  exists embeddings M,
    MultipleASE.embed_each library (mase (Some 3%Z)) 2 [four; four]
    = Ok embeddings /\
    MultipleASE.choose_dimension library (mase (Some 3%Z))
      (map (fun e => snd (fst e)) embeddings) = Ok 3%Z /\
    MultipleASE.stack_left (mase (Some 3%Z)) 3
      (map (fun e => fst (fst e)) embeddings)
      (map (fun e => snd (fst e)) embeddings) = Ok M /\
    Mat.shape M = (4, 4) /\
    Mat.shape M <> (4, 2 * 3) /\
    fst (MultipleASE.fit library (pair four) (mase (Some 3%Z))) = Ok tt.
Proof.
  eexists. eexists.
  split; [vm_compute; reflexivity |].
  split; [reflexivity |].
  split; [vm_compute; reflexivity |].
  split; [reflexivity |].
  split; [discriminate |].
  vm_compute; reflexivity.
Qed.


End Examples.

(** * Further examples *)

Module MoreExamples.
Import BaseEmbed.
Import Demo.

(** The rationals satisfy the laws of distances. *)
Lemma rationals_distance_laws : distance_laws rationals.
Proof.
  unfold distance_laws.
  split; [| split; [reflexivity | split; [reflexivity | split; [reflexivity |]]]].
  - intros x. change (f0 rationals) with (Qreduction.Qred (q 0)).
    change (fsub rationals x x)
      with (Qreduction.Qred (QArith_base.Qminus x x)).
    apply Qreduction.Qred_complete.
    unfold QArith_base.Qminus. apply QArith_base.Qplus_opp_r.
  - intros a b.
    change (Qreduction.Qred
              (QArith_base.Qmult (Qreduction.Qred (QArith_base.Qminus a b))
                 (Qreduction.Qred (QArith_base.Qminus a b)))
            = Qreduction.Qred
                (QArith_base.Qmult (Qreduction.Qred (QArith_base.Qminus b a))
                   (Qreduction.Qred (QArith_base.Qminus b a)))).
    apply Qreduction.Qred_complete.
    rewrite !Qreduction.Qred_correct.
    unfold QArith_base.Qeq, QArith_base.Qminus, QArith_base.Qplus,
      QArith_base.Qmult, QArith_base.Qopp. simpl.
    rewrite !Pos2Z.inj_mul. ring.
Qed.

Lemma rejected_input_leaves_object_witness :
  rejected_input library (PyList [GArr heavy_first]) = Some ValueError /\
  MultipleASE.fit library (PyList [GArr heavy_first]) fitted
  = (Raise ValueError, fitted) /\
  MultipleASE.fit_transform library (PyList [GArr heavy_first]) fitted
  = (Raise ValueError, fitted) /\
  MultipleASE.transform library (PyList [GArr heavy_first]) fitted
  = (Raise ValueError, fitted).
Proof.
  split; [reflexivity |].
  apply (@rejected_input_leaves_object rationals library
           (PyList [GArr heavy_first]) ValueError fitted).
  reflexivity.
Defined.

Lemma failed_fit_keeps_scores_witness :
  MultipleASE.fit library ragged fitted
  = (Raise ValueError, fitted_on ragged fitted) /\
  scores_ (fitted_on ragged fitted) = scores_ fitted.
Proof.
  split; [vm_compute; reflexivity |].
  apply (@failed_fit_keeps_scores rationals library ragged fitted ValueError
           (fitted_on ragged fitted)).
  vm_compute; reflexivity.
Defined.

Lemma transform_returns_stored_scores_witness :
  MultipleASE.transform library (pair heavy_second) fitted
  = (Ok [mat [[2]]%Z; mat [[2]]%Z], fitted_on (pair heavy_second) fitted) /\
  scores_ (fitted_on (pair heavy_second) fitted)
  = Some [mat [[2]]%Z; mat [[2]]%Z].
Proof.
  split; [vm_compute; reflexivity |].
  apply (@transform_returns_stored_scores rationals library
           (pair heavy_second) fitted [mat [[2]]%Z; mat [[2]]%Z]
           (fitted_on (pair heavy_second) fitted)).
  vm_compute; reflexivity.
Defined.

Lemma fit_bookkeeping_witness :
  MultipleASE.fit library (PyList [GArr directed2; GArr directed2])
    (mase (Some 1%Z))
  = (Ok tt, fitted_on (pair directed2) (mase (Some 1%Z))) /\
  exists out S,
    mapM (import_graph library) [GArr directed2; GArr directed2] = Ok out /\
    2 <= length [GArr directed2; GArr directed2 : graph] /\
    n_graphs_ (fitted_on (pair directed2) (mase (Some 1%Z)))
    = Some (length [GArr directed2; GArr directed2 : graph]) /\
    n_vertices_ (fitted_on (pair directed2) (mase (Some 1%Z)))
    = Some (Mat.nrows (hd [] out)) /\
    scores_ (fitted_on (pair directed2) (mase (Some 1%Z))) = Some S /\
    length S = length [GArr directed2; GArr directed2 : graph].
Proof.
  split; [vm_compute; reflexivity |].
  apply (@fit_bookkeeping rationals library [GArr directed2; GArr directed2]
           (mase (Some 1%Z)) (fitted_on (pair directed2) (mase (Some 1%Z)))).
  vm_compute; reflexivity.
Defined.

Lemma get_latent_after_fit_witness :
  MultipleASE.fit library (pair directed2) (mase (Some 1%Z))
  = (Ok tt, fitted_on (pair directed2) (mase (Some 1%Z))) /\
  MultipleASE.fit library (pair heavy_first) (mase (Some 1%Z))
  = (Ok tt, fitted) /\
  (exists Uhat,
     latent_left_ (fitted_on (pair directed2) (mase (Some 1%Z)))
     = Some Uhat /\
     ((undirected (fitted_on (pair directed2) (mase (Some 1%Z))) = Some true /\
       latent_right_ (fitted_on (pair directed2) (mase (Some 1%Z)))
       = Some None /\
       MultipleASE.get_latent (fitted_on (pair directed2) (mase (Some 1%Z)))
       = (Ok (MultipleASE.Single Uhat),
          fitted_on (pair directed2) (mase (Some 1%Z)))) \/
      (exists Vhat,
         undirected (fitted_on (pair directed2) (mase (Some 1%Z)))
         = Some false /\
         latent_right_ (fitted_on (pair directed2) (mase (Some 1%Z)))
         = Some (Some Vhat) /\
         MultipleASE.get_latent (fitted_on (pair directed2) (mase (Some 1%Z)))
         = (Ok (MultipleASE.Tuple Uhat (Some Vhat)),
            fitted_on (pair directed2) (mase (Some 1%Z)))))) /\
  (exists Uhat,
     latent_left_ fitted = Some Uhat /\
     ((undirected fitted = Some true /\
       latent_right_ fitted = Some None /\
       MultipleASE.get_latent fitted = (Ok (MultipleASE.Single Uhat), fitted)) \/
      (exists Vhat,
         undirected fitted = Some false /\
         latent_right_ fitted = Some (Some Vhat) /\
         MultipleASE.get_latent fitted
         = (Ok (MultipleASE.Tuple Uhat (Some Vhat)), fitted)))).
Proof.
  split; [vm_compute; reflexivity |].
  split; [vm_compute; reflexivity |].
  split.
  - apply (@get_latent_after_fit rationals library (pair directed2)
             (mase (Some 1%Z)) (fitted_on (pair directed2) (mase (Some 1%Z)))).
    vm_compute; reflexivity.
  - apply (@get_latent_after_fit rationals library (pair heavy_first)
             (mase (Some 1%Z)) fitted).
    vm_compute; reflexivity.
Defined.

Lemma stacking_ignores_excess_dimension_witness :
  has_shape 4 2 four_U /\
  MultipleASE.stack_left (mase (Some 3%Z)) 3 [four_U; four_U] [four_D; four_D]
  = MultipleASE.stack_left (mase (Some 3%Z)) (Z.of_nat 2) [four_U; four_U]
      [four_D; four_D] /\
  (scaled (mase (Some 3%Z)) = false ->
   MultipleASE.stack_left (mase (Some 3%Z)) 3 [four_U; four_U]
     [four_D; four_D]
   = Mat.hstack [four_U; four_U]).
Proof.
  assert (HU : has_shape 4 2 four_U).
  { split; [reflexivity | repeat constructor]. }
  split; [exact HU |].
  apply (@stacking_ignores_excess_dimension rationals (mase (Some 3%Z)) 3
           [four_U; four_U] [four_D; four_D] 4 2).
  - repeat constructor; apply HU.
  - repeat constructor.
  - simpl. lia.
Defined.

Lemma projection_shapes_witness :
  has_shape 2 1 directed2_U /\
  has_shape 2 1 right_basis /\
  exists S,
    MultipleASE.project directed2_U [directed2; directed2] right_basis = Ok S /\
    length S = length [directed2; directed2] /\
    Forall (has_shape 1 1) S.
Proof.
  assert (HU : has_shape 2 1 directed2_U).
  { split; [reflexivity | repeat constructor]. }
  assert (HV : has_shape 2 1 right_basis).
  { split; [reflexivity | repeat constructor]. }
  split; [exact HU |]. split; [exact HV |].
  apply (@projection_shapes rationals 2 1 1 directed2_U right_basis
           [directed2; directed2]).
  - lia.
  - lia.
  - exact HU.
  - exact HV.
  - repeat constructor.
Defined.

Lemma euclidean_distances_matrix_witness :
  exists D,
    ClassicalMDS._compute_euclidean_distances (Arr2 points) = Ok D /\
    has_shape 2 2 D /\
    entry 0 1 D = q 5 /\
    entry 0 0 D = q 0 /\
    entry 0 1 D = entry 1 0 D.
Proof.
  destruct (@euclidean_distances_matrix rationals points)
    as (D & HD & Hshape & Hentry & Hlaws).
  exists D. split; [exact HD |]. split; [exact Hshape |].
  split.
  - rewrite (Hentry 0 1) by (simpl; lia). vm_compute. reflexivity.
  - destruct (Hlaws rationals_distance_laws 0 1) as (H0 & Hsym);
      [simpl; lia | simpl; lia |].
    split; [exact H0 | exact Hsym].
Defined.

Lemma mds_fit_all_or_nothing_witness :
  ClassicalMDS.fit library (PyNd (Arr2 distances)) mds
  = (Ok tt, snd (ClassicalMDS.fit library (PyNd (Arr2 distances)) mds)) /\
  exists U sv D,
    ClassicalMDS.components_
      (snd (ClassicalMDS.fit library (PyNd (Arr2 distances)) mds)) = Some U /\
    ClassicalMDS.singular_values_
      (snd (ClassicalMDS.fit library (PyNd (Arr2 distances)) mds)) = Some sv /\
    ClassicalMDS.n_components_
      (snd (ClassicalMDS.fit library (PyNd (Arr2 distances)) mds))
    = Some (length sv) /\
    ClassicalMDS.dissimilarity_matrix_
      (snd (ClassicalMDS.fit library (PyNd (Arr2 distances)) mds)) = Some D /\
    ClassicalMDS.n_components
      (snd (ClassicalMDS.fit library (PyNd (Arr2 distances)) mds))
    = ClassicalMDS.n_components mds /\
    ClassicalMDS.dissimilarity
      (snd (ClassicalMDS.fit library (PyNd (Arr2 distances)) mds))
    = ClassicalMDS.dissimilarity mds.
Proof.
  split; [vm_compute; reflexivity |].
  apply (@mds_fit_all_or_nothing rationals library (PyNd (Arr2 distances)) mds
           (Ok tt)
           (snd (ClassicalMDS.fit library (PyNd (Arr2 distances)) mds))).
  vm_compute; reflexivity.
Defined.

End MoreExamples.
